(** * agent-kanban-pm: the real-time coordination core

    A shallow embedding of the autopilot control loop
    ([routers/autopilot.py]), the task-assignment endpoints
    ([routers/tasks.py]) and the websocket admission handlers
    ([routers/websockets.py]), together with the properties the
    specification states about them.

    Storage tables are finite maps keyed by their primary key, which is
    also how the ORM session identifies an object; Python exceptions are
    values of an error monad that also threads the session, the committed
    database and the trace of externally visible calls. *)

From Stdlib Require Import ZArith String Ascii DecimalString.
From stdpp Require Import base option list gmap strings.

Local Open Scope string_scope.
Local Open Scope list_scope.
Local Open Scope Z_scope.

(** ** Python values and exceptions *)

(** [str(n)] for an [int]. *)
Definition py_str_int (n : Z) : string :=
  NilZero.string_of_int (Z.to_int n).

(** Values stored in a notification payload ([dict] values). *)
Inductive py_value :=
| PyInt (n : Z)
| PyStr (s : string).

(** A [dict] literal keeps its insertion order. *)
Definition py_dict := list (string * py_value).

Fixpoint dict_get (d : py_dict) (k : string) : option py_value :=
  match d with
  | [] => None
  | (k', v) :: d' => if String.eqb k k' then Some v else dict_get d' k
  end.

Definition dict_keys (d : py_dict) : list string := d.*1.

(** The exception classes that matter to the handlers: where a class sits
    under [BaseException] decides which [except] clause takes it. *)
Inductive exc_class :=
| ClsNameError
| ClsWebSocketDisconnect
| ClsException (name : string)   (* any other subclass of Exception *)
| ClsCancelledError              (* asyncio: derives from BaseException *)
| ClsKeyboardInterrupt
| ClsSystemExit.

Record py_exception := PyExc {
  exc_cls : exc_class;
  exc_str : string               (* what [str(e)] renders *)
}.

(** [isinstance(e, Exception)] *)
Definition isinstance_Exception (e : py_exception) : bool :=
  match exc_cls e with
  | ClsNameError | ClsWebSocketDisconnect | ClsException _ => true
  | ClsCancelledError | ClsKeyboardInterrupt | ClsSystemExit => false
  end.

(** [isinstance(e, WebSocketDisconnect)] *)
Definition isinstance_WebSocketDisconnect (e : py_exception) : bool :=
  match exc_cls e with
  | ClsWebSocketDisconnect => true
  | _ => false
  end.

(** What the interpreter raises for a free name that no scope binds. *)
Definition name_error (name : string) : py_exception :=
  PyExc ClsNameError ("name '" +:+ name +:+ "' is not defined").

(** ** [datetime] (standard library) *)

(** A naive [datetime]; the constructor of the Python class enforces the
    ranges, which [dt_valid] records. *)
Record datetime := DateTime {
  dt_year : N; dt_month : N; dt_day : N;
  dt_hour : N; dt_minute : N; dt_second : N; dt_microsecond : N;
  dt_valid :
    ((1 <=? dt_year) && (dt_year <=? 9999) &&
     (1 <=? dt_month) && (dt_month <=? 12) &&
     (1 <=? dt_day) && (dt_day <=? 31) &&
     (dt_hour <=? 23) && (dt_minute <=? 59) && (dt_second <=? 59) &&
     (dt_microsecond <=? 999999))%N = true
}.

Definition digit_char (d : N) : ascii :=
  ascii_of_N (48 + d mod 10).

(** [w] decimal digits of [n], most significant first: ["%0wd" % n] for
    every [n] below [10^w]. *)
Fixpoint zero_padded (w : nat) (n : N) : string :=
  match w with
  | O => EmptyString
  | S w' => zero_padded w' (n / 10) +:+ String (digit_char n) EmptyString
  end.

(** [datetime.isoformat()]: the fraction is printed only when the
    microsecond field is not zero. *)
Definition isoformat (d : datetime) : string :=
  zero_padded 4 (dt_year d) +:+ "-" +:+ zero_padded 2 (dt_month d) +:+ "-" +:+
  zero_padded 2 (dt_day d) +:+ "T" +:+ zero_padded 2 (dt_hour d) +:+ ":" +:+
  zero_padded 2 (dt_minute d) +:+ ":" +:+ zero_padded 2 (dt_second d) +:+
  (if (dt_microsecond d =? 0)%N then EmptyString
   else "." +:+ zero_padded 6 (dt_microsecond d)).

Definition is_digit (c : ascii) : bool :=
  let n := N_of_ascii c in ((48 <=? n) && (n <=? 57))%N.

(** A checker for the ISO-8601 extended date-time form
    [YYYY-MM-DDThh:mm:ss] with an optional decimal fraction of seconds. *)
Fixpoint matches_pattern (pat : list (option ascii)) (s : string) : option string :=
  match pat with
  | [] => Some s
  | p :: pat' =>
      match s with
      | EmptyString => None
      | String c s' =>
          if match p with
             | None => is_digit c
             | Some sep => Ascii.eqb sep c
             end
          then matches_pattern pat' s' else None
      end
  end.

Definition iso_datetime_pattern : list (option ascii) :=
  let d := @None ascii in
  [d; d; d; d; Some "-"%char; d; d; Some "-"%char; d; d; Some "T"%char;
   d; d; Some ":"%char; d; d; Some ":"%char; d; d].

Fixpoint all_digits (s : string) : bool :=
  match s with
  | EmptyString => true
  | String c s' => is_digit c && all_digits s'
  end.

Definition is_iso8601 (s : string) : bool :=
  match matches_pattern iso_datetime_pattern s with
  | None => false
  | Some EmptyString => true
  | Some (String c frac) =>
      Ascii.eqb c "."%char && negb (String.eqb frac EmptyString) && all_digits frac
  end.

(** ** Storage ([models.py], [database.py]) *)

(** Modelled from the spec: [models.py] is not among the sources. The
    columns are the ones the handlers of [routers/] read and write; each
    table is keyed by its primary key [id]. *)
Inductive TaskStatus :=
| PENDING
| IN_PROGRESS
| COMPLETED
| OTHER_STATUS (name : string).

Global Instance TaskStatus_eq_dec : EqDecision TaskStatus.
Proof. solve_decision. Defined.

(** Modelled from the spec: the row of an entity, without its key; only
    [name] is read by the code under study. *)
Record Entity := mkEntity {
  entity_name : string
}.

(** Modelled from the spec: the row of a task, without its key.
    [assignees] is the relationship collection: the identifiers of the
    linked entities, in the order they were appended. *)
Record Task := mkTask {
  task_title : string;
  task_status : TaskStatus;
  task_project_id : Z;
  task_assignees : list Z
}.

(** Modelled from the spec: an audit log entry, with the columns that
    [TaskLog(task_id=..., message=..., log_type=...)] sets. *)
Record TaskLog := mkTaskLog {
  log_task_id : Z;
  log_message : string;
  log_type : string
}.

(** The three tables; the audit log keeps the order of insertion. *)
Record Store := mkStore {
  entities : gmap Z Entity;
  tasks : gmap Z Task;
  task_logs : list TaskLog
}.

Definition set_tasks (ts : gmap Z Task) (s : Store) : Store :=
  mkStore (entities s) ts (task_logs s).

Definition add_log (l : TaskLog) (s : Store) : Store :=
  mkStore (entities s) (tasks s) (task_logs s ++ [l]).

Definition with_assignee (eid : Z) (t : Task) : Task :=
  mkTask (task_title t) (task_status t) (task_project_id t) (task_assignees t ++ [eid]).

(** [task.assignees.append(entity)] on the object the session holds for
    primary key [tid]. *)
Definition append_assignee (tid : Z) (eid : Z) (s : Store) : Store :=
  set_tasks (alter (with_assignee eid) tid (tasks s)) s.

(** [select(Task).filter(Task.status == TaskStatus.PENDING)]: the rows,
    each with its primary key. *)
Definition select_pending (s : Store) : list (Z * Task) :=
  filter (λ kt, task_status kt.2 = PENDING) (map_to_list (tasks s)).

(** ** The connection registry ([websocket_manager.py]) *)

(** Modelled from the spec: "an immutable message with a type tag, a
    payload, a timestamp, and an optional target project identifier". *)
Record Notification := mkNotification {
  n_type : string;
  n_data : py_dict;
  n_project_id : option Z;
  n_timestamp : string
}.

(** Modelled from the spec: [websocket_manager.py] is not among the
    sources. A notification has "a type tag, a payload, a timestamp, and an
    optional target project identifier"; [now] is the reading of the
    manager's own clock. *)
Definition create_notification (now : string) (type : string) (data : py_dict)
    (project_id : option Z) : Notification :=
  mkNotification type data project_id now.

Module manager.

(** Modelled from the spec: a connection is "an opaque handle to a duplex
    transport". *)
Definition connection := nat.

(** Modelled from the spec: "a mapping from scope to the set of
    connections currently subscribed to that scope"; project events go
    only to that project's set, global events to a separate set. *)
Record registry := mkRegistry {
  active_connections : gmap Z (gset nat);
  global_connections : gset nat
}.

(** The registry of a process that has admitted nobody yet. *)
Definition empty : registry := mkRegistry ∅ ∅.

(** The connections registered under [scope]; [None] is the global scope. *)
Definition subscribers (reg : registry) (scope : option Z) : gset nat :=
  match scope with
  | Some p => default ∅ (active_connections reg !! p)
  | None => global_connections reg
  end.

(** Modelled from the spec: [Connect] "registers the connection under the
    given scope" and always succeeds. *)
Definition connect (ws : connection) (scope : option Z) (reg : registry) : registry :=
  match scope with
  | Some p =>
      mkRegistry (<[p := {[ws]} ∪ subscribers reg (Some p)]> (active_connections reg))
                 (global_connections reg)
  | None => mkRegistry (active_connections reg) ({[ws]} ∪ global_connections reg)
  end.

(** Modelled from the spec: [Disconnect] "removes the connection from the
    scope's set. Idempotent; never errors." *)
Definition disconnect (ws : connection) (scope : option Z) (reg : registry) : registry :=
  match scope with
  | Some p =>
      match active_connections reg !! p with
      | Some conns =>
          mkRegistry (<[p := conns ∖ {[ws]}]> (active_connections reg))
                     (global_connections reg)
      | None => reg
      end
  | None => mkRegistry (active_connections reg) (global_connections reg ∖ {[ws]})
  end.

(** One send on one transport; [peer_alive] tells whether the transport
    accepts it. *)
Record delivery := mkDelivery {
  d_to : connection;
  d_message : Notification;
  d_ok : bool
}.

(** Modelled from the spec: [BroadcastToProject] "delivers the
    notification to every connection currently subscribed to that
    project's scope"; a failed send is skipped and not propagated. *)
Definition broadcast_to_project (peer_alive : connection → bool)
    (n : Notification) (project_id : Z) (reg : registry) : list delivery :=
  (λ ws, mkDelivery ws n (peer_alive ws)) <$> elements (subscribers reg (Some project_id)).

(** Modelled from the spec: [BroadcastGlobal], "analogous, over the
    global-scope set". *)
Definition broadcast_global (peer_alive : connection → bool)
    (n : Notification) (reg : registry) : list delivery :=
  (λ ws, mkDelivery ws n (peer_alive ws)) <$> elements (subscribers reg None).

(** The connections that received [n]. *)
Definition delivered_to (ds : list delivery) : list connection :=
  d_to <$> filter (λ d, d_ok d = true) ds.

End manager.

(** ** The autopilot control loop ([routers/autopilot.py]) *)

Record AutopilotConfig := mkConfig {
  enabled : bool;
  manager_id : option Z
}.

(** [current_config = AutopilotConfig()] at import time. *)
Definition initial_config : AutopilotConfig := mkConfig false None.

Definition get_config (current_config : AutopilotConfig) : AutopilotConfig :=
  current_config.

(** Returns the new value of the global and the response. *)
Definition update_config (config current_config : AutopilotConfig)
    : AutopilotConfig * AutopilotConfig :=
  (config, config).

(** Truth value of an [Optional[int]]: [None] and [0] are false. *)
Definition py_truthy (o : option Z) : bool :=
  match o with
  | Some n => negb (n =? 0)
  | None => false
  end.

(** The calls an iteration makes on its collaborators, in order; an event
    is recorded when the call has returned. *)
Inductive event :=
| EvSelectEntity (id : option Z)
| EvSelectPendingTasks
| EvAppendAssignee (task_id entity_id : Z)
| EvAddLog (l : TaskLog)
| EvCommit
| EvPrint (line : string)
| EvBroadcast (n : Notification) (project_id : Z)
| EvSleep (seconds : Z).

(** The places of steps 2 to 6 where a collaborator can raise. *)
Inductive fault_point :=
| AtSelectEntity
| AtSelectPendingTasks
| AtAssign (task_id : Z)
| AtCommit
| AtBroadcast (k : nat).

(** What surrounds one iteration: the binding of the free name [datetime]
    in the module's globals (with the clock it then reads), the clock of
    the websocket manager, and the failures of the collaborators. *)
Record environment := mkEnv {
  env_datetime : option (nat → datetime);
  env_manager_clock : nat → string;
  env_fault : fault_point → option py_exception
}.

(** Computations over a state [S] that return or raise. *)
Inductive outcome (A : Type) :=
| Returns (a : A)
| Raises (e : py_exception).
Arguments Returns {A} a.
Arguments Raises {A} e.

Definition SE (S A : Type) : Type := S → outcome A * S.

Global Instance SE_ret {S} : MRet (SE S) := λ A a w, (Returns a, w).

Global Instance SE_bind {S} : MBind (SE S) := λ A B f m w,
  match m w with
  | (Returns a, w') => f a w'
  | (Raises e, w') => (Raises e, w')
  end.

Definition raise {S A} (e : py_exception) : SE S A := λ w, (Raises e, w).

(** The database as committed, the state of the open session, and the
    calls made so far. *)
Record world := World {
  committed : Store;
  session : Store;
  trace : list event
}.

Abbreviation M := (SE world).

Definition emit (ev : event) : M unit := λ w,
  (Returns (), World (committed w) (session w) (trace w ++ [ev])).

Definition read_session {A} (f : Store → A) : M A := λ w, (Returns (f (session w)), w).

Definition modify_session (f : Store → Store) : M unit := λ w,
  (Returns (), World (committed w) (f (session w)) (trace w)).

(** [try: body except Exception as e: handler(e)]; anything that is not an
    [Exception] passes through. *)
Definition try_except_Exception (body : M unit) (handler : py_exception → M unit)
    : M unit := λ w,
  match body w with
  | (Raises e, w') =>
      if isinstance_Exception e then handler e w' else (Raises e, w')
  | (Returns a, w') => (Returns a, w')
  end.

(** [async with async_session_factory() as session: body]: the session
    starts from the committed state and whatever it has not committed is
    gone when the block is left, normally or not. *)
Definition with_session {A} (body : M A) : M A := λ w,
  let '(r, w') := body (World (committed w) (committed w) (trace w)) in
  (r, World (committed w') (committed w') (trace w')).

Definition print (line : string) : M unit := emit (EvPrint line).

(** [await asyncio.sleep(seconds)] *)
Definition sleep (seconds : Z) : M unit := emit (EvSleep seconds).

(** The row of [Entity] whose key equals [id], with its key; comparing the
    key with [None] selects no row. *)
Definition entity_with_id (id : option Z) (s : Store) : option (Z * Entity) :=
  i ← id; e ← entities s !! i; Some (i, e).
Global Arguments entity_with_id : simpl never.

Section iteration.

Variable current_config : AutopilotConfig.
Variable env : environment.

Definition fault (p : fault_point) : M unit :=
  match env_fault env p with
  | Some e => raise e
  | None => mret ()
  end.

(** [session.execute(select(Entity).filter(Entity.id == id))
    .scalar_one_or_none()] *)
Definition select_entity (id : option Z) : M (option (Z * Entity)) :=
  fault AtSelectEntity;;
  emit (EvSelectEntity id);;
  read_session (entity_with_id id).

Definition select_pending_tasks : M (list (Z * Task)) :=
  fault AtSelectPendingTasks;;
  emit EvSelectPendingTasks;;
  read_session select_pending.

(** [await session.commit()] *)
Definition commit : M unit := λ w,
  match env_fault env AtCommit with
  | Some e => (Raises e, w)
  | None => (Returns (), World (session w) (session w) (trace w ++ [EvCommit]))
  end.

(** [datetime.utcnow()]: the name is resolved when the expression runs. *)
Definition datetime_utcnow (k : nat) : M datetime :=
  match env_datetime env with
  | Some clock => mret (clock k)
  | None => raise (name_error "datetime")
  end.

Definition format_log_msg (manager_entity : Z * Entity) (task : Z * Task) : string :=
  "Autopilot: Manager " +:+ entity_name manager_entity.2 +:+
  " self-assigned task '" +:+ task_title task.2 +:+ "'".

(** Lines 64-74: the [for task in tasks] loop; [processed_tasks] is the
    list built so far. The tuple keeps the task as selected: only its
    key and [project_id] are read from it afterwards. *)
Fixpoint assign_unassigned (manager_entity : Z * Entity) (tasks : list (Z * Task))
    (processed_tasks : list ((Z * Task) * string)) : M (list ((Z * Task) * string)) :=
  match tasks with
  | [] => mret processed_tasks
  | task :: rest =>
      if bool_decide (task_assignees task.2 = []) then
        fault (AtAssign task.1);;
        modify_session (append_assignee task.1 manager_entity.1);;
        emit (EvAppendAssignee task.1 manager_entity.1);;
        let log_msg := format_log_msg manager_entity task in
        let log := mkTaskLog task.1 log_msg "action" in
        modify_session (add_log log);;
        emit (EvAddLog log);;
        assign_unassigned manager_entity rest (processed_tasks ++ [(task, log_msg)])
      else
        assign_unassigned manager_entity rest processed_tasks
  end.

Definition log_payload (task : Z * Task) (msg : string) (now : datetime) : py_dict :=
  [("task_id", PyInt task.1);
   ("type", PyStr "log");
   ("message", PyStr msg);
   ("log_type", PyStr "action");
   ("timestamp", PyStr (isoformat now))].

(** Lines 81-91: the [for task, msg in processed_tasks] loop; [k] counts
    the notifications built so far. *)
Fixpoint broadcast_updates (k : nat) (processed_tasks : list ((Z * Task) * string))
    : M unit :=
  match processed_tasks with
  | [] => mret ()
  | (task, msg) :: rest =>
      now ← datetime_utcnow k;
      let notification :=
        create_notification (env_manager_clock env k) "task_update"
          (log_payload task msg now) (Some (task_project_id task.2)) in
      fault (AtBroadcast k);;
      emit (EvBroadcast notification (task_project_id task.2));;
      broadcast_updates (S k) rest
  end.

(** Lines 48-93: the body of the [try]. *)
Definition iteration_body : M unit :=
  (if enabled current_config && py_truthy (manager_id current_config) then
     with_session (
       manager_entity ← select_entity (manager_id current_config);
       match manager_entity with
       | Some manager_entity =>
           tasks ← select_pending_tasks;
           processed_tasks ← assign_unassigned manager_entity tasks [];
           match processed_tasks with
           | [] => mret ()
           | _ :: _ =>
               commit;;
               print ("Autopilot: Assigned " +:+
                      py_str_int (Z.of_nat (length processed_tasks)) +:+
                      " tasks to " +:+ entity_name manager_entity.2);;
               broadcast_updates 0 processed_tasks
           end
       | None => mret ()
       end)
   else mret ());;
  sleep 5.

(** Lines 47-96: one turn of [while True]. *)
Definition iteration : M unit :=
  try_except_Exception iteration_body
    (λ e, print ("Autopilot error: " +:+ exc_str e);; sleep 5).

End iteration.

(** What the loop meets at one turn: the configuration then current and
    the surroundings of that turn. *)
Record tick := mkTick {
  tick_config : AutopilotConfig;
  tick_env : environment
}.

(** [run_autopilot_loop] over the turns of [script]. [Returns] means that
    the loop is still running after them; [Raises] that an exception left
    the function. *)
Fixpoint run_autopilot_loop (script : list tick) : M unit :=
  match script with
  | [] => mret ()
  | t :: rest =>
      iteration (tick_config t) (tick_env t);;
      run_autopilot_loop rest
  end.

Definition start (db : Store) : world := World db db [].

Definition no_faults : fault_point → option py_exception := λ _, None.

(** The module as written: no statement of [routers/autopilot.py] binds
    the name [datetime]. *)
Definition autopilot_module (manager_clock : nat → string)
    (faults : fault_point → option py_exception) : environment :=
  mkEnv None manager_clock faults.

(** ** Task assignment ([routers/tasks.py]) *)

Inductive http_result (A : Type) :=
| Response (body : A)
| HTTPException (status_code : Z) (detail : string).
Arguments Response {A} body.
Arguments HTTPException {A} status_code detail.

(** [await db.refresh(task)]: the attributes as the database now has them. *)
Definition refresh (db : Store) (task_id : Z) (task : Task) : Task :=
  default task (tasks db !! task_id).

(** [POST /tasks/{task_id}/assign]: the response and the database after the
    request. [entity not in task.assignees] compares objects of one session,
    which are the same exactly when their keys are. *)
Definition assign_task (task_id entity_id : Z) (db : Store)
    : http_result (Z * Task) * Store :=
  match tasks db !! task_id with
  | None => (HTTPException 404 "Task not found", db)
  | Some task =>
      match entities db !! entity_id with
      | None => (HTTPException 404 "Entity not found", db)
      | Some entity =>
          if bool_decide (entity_id ∉ task_assignees task) then
            let db' := append_assignee task_id entity_id db in
            (Response (task_id, refresh db' task_id task), db')
          else
            (Response (task_id, task), db)
      end
  end.

(** [POST /tasks/{task_id}/self-assign] *)
Definition self_assign_task (task_id entity_id : Z) (db : Store)
    : http_result (Z * Task) * Store :=
  match tasks db !! task_id with
  | None => (HTTPException 404 "Task not found", db)
  | Some task =>
      match entities db !! entity_id with
      | None => (HTTPException 404 "Entity not found", db)
      | Some entity =>
          if bool_decide (entity_id ∉ task_assignees task) then
            let db' := append_assignee task_id entity_id db in
            (Response (task_id, refresh db' task_id task), db')
          else
            (Response (task_id, task), db)
      end
  end.

(** ** Connection admission ([routers/websockets.py]) *)

Inductive ws_event :=
| WsConnect (ws : manager.connection) (scope : option Z)
| WsSend (ws : manager.connection) (message : py_dict)
| WsDisconnect (ws : manager.connection) (scope : option Z)
| WsPrint (line : string).

Record ws_world := WsWorld {
  ws_registry : manager.registry;
  ws_trace : list ws_event
}.

Abbreviation W := (SE ws_world).

Section handlers.

(** The transport of one connection: [send_fault k] is the exception with
    which the transport refuses the [k]-th send made on it, if it does. *)
Variable websocket : manager.connection.
Variable send_fault : nat → option py_exception.

Definition manager_connect (scope : option Z) : W unit := λ w,
  (Returns (), WsWorld (manager.connect websocket scope (ws_registry w))
                       (ws_trace w ++ [WsConnect websocket scope])).

Definition manager_disconnect (scope : option Z) : W unit := λ w,
  (Returns (), WsWorld (manager.disconnect websocket scope (ws_registry w))
                       (ws_trace w ++ [WsDisconnect websocket scope])).

(** Modelled from the spec: [SendTo] "delivers one message to one
    connection"; a transport whose peer is gone raises to the caller and
    the registry is left as it is. [k] counts the sends made before. *)
Definition manager_send_personal_message (k : nat) (message : py_dict) : W unit :=
  λ w,
  match send_fault k with
  | Some e => (Raises e, w)
  | None =>
      (Returns (), WsWorld (ws_registry w) (ws_trace w ++ [WsSend websocket message]))
  end.

Definition ws_print (line : string) : W unit := λ w,
  (Returns (), WsWorld (ws_registry w) (ws_trace w ++ [WsPrint line])).

Definition echo_message (data : string) : py_dict :=
  [("type", PyStr "echo"); ("message", PyStr data)].

(** The [while True] loop of both handlers: [frames] are the texts that
    [receive_text] returns, in order, and [closing] the exception with
    which it then ends the loop. *)
Fixpoint receive_loop (k : nat) (frames : list string) (closing : py_exception)
    : W unit :=
  match frames with
  | [] => raise closing
  | data :: rest =>
      manager_send_personal_message k (echo_message data);;
      receive_loop (S k) rest closing
  end.

(** [try: body except WebSocketDisconnect: h1 except Exception as e: h2] *)
Definition try_except_ws (body : W unit) (on_disconnect : W unit)
    (on_exception : py_exception → W unit) : W unit := λ w,
  match body w with
  | (Raises e, w') =>
      if isinstance_WebSocketDisconnect e then on_disconnect w'
      else if isinstance_Exception e then on_exception e w'
      else (Raises e, w')
  | (Returns a, w') => (Returns a, w')
  end.


Definition global_greeting : py_dict :=
  [("type", PyStr "connection");
   ("message", PyStr "Connected to global updates")].


Definition websocket_global_updates
    (frames : list string) (closing : py_exception) : W unit :=
  manager_connect None;;
  try_except_ws
    (manager_send_personal_message 0 global_greeting;;
     receive_loop 1 frames closing)
    (manager_disconnect None)
    (λ e, ws_print ("WebSocket error: " +:+ exc_str e);;
          manager_disconnect None).

End handlers.

Definition ws_start (reg : manager.registry) : ws_world := WsWorld reg [].

(** ** A closed form of the two loops of an iteration *)

Section loops_closed_form.

Variable env : environment.
Variable manager_entity : Z * Entity.

(** The tasks that the loop of lines 64-74 assigns, in order, and the
    exception that stops it, if one does. *)
Fixpoint assignable (tasks : list (Z * Task))
    : list (Z * Task) * option py_exception :=
  match tasks with
  | [] => ([], None)
  | task :: rest =>
      if bool_decide (task_assignees task.2 = []) then
        match env_fault env (AtAssign task.1) with
        | Some e => ([], Some e)
        | None => (task :: (assignable rest).1, (assignable rest).2)
        end
      else assignable rest
  end.

Definition audit_log (task : Z * Task) : TaskLog :=
  mkTaskLog task.1 (format_log_msg manager_entity task) "action".

Definition assign_one (s : Store) (task : Z * Task) : Store :=
  add_log (audit_log task) (append_assignee task.1 manager_entity.1 s).

Definition assign_events (task : Z * Task) : list event :=
  [EvAppendAssignee task.1 manager_entity.1; EvAddLog (audit_log task)].

Definition processed_entry (task : Z * Task) : (Z * Task) * string :=
  (task, format_log_msg manager_entity task).

Definition task_notification (k : nat) (clock : nat → datetime)
    (entry : (Z * Task) * string) : Notification :=
  create_notification (env_manager_clock env k) "task_update"
    (log_payload entry.1 entry.2 (clock k)) (Some (task_project_id entry.1.2)).

(** The notifications that the loop of lines 81-91 hands to the
    broadcaster, in order, and the exception that stops it, if one does. *)
Fixpoint broadcastable (k : nat) (processed_tasks : list ((Z * Task) * string))
    : list event * option py_exception :=
  match processed_tasks with
  | [] => ([], None)
  | entry :: rest =>
      match env_datetime env with
      | None => ([], Some (name_error "datetime"))
      | Some clock =>
          match env_fault env (AtBroadcast k) with
          | Some e => ([], Some e)
          | None =>
              (EvBroadcast (task_notification k clock entry)
                           (task_project_id entry.1.2)
                 :: (broadcastable (S k) rest).1,
               (broadcastable (S k) rest).2)
          end
      end
  end.

End loops_closed_form.

(** The events of a trace, by kind. *)
Definition is_write (ev : event) : bool :=
  match ev with
  | EvAppendAssignee _ _ | EvAddLog _ | EvCommit => true
  | _ => false
  end.

Definition is_broadcast (ev : event) : bool :=
  match ev with
  | EvBroadcast _ _ => true
  | _ => false
  end.

Definition broadcasts (tr : list event) : list (Notification * Z) :=
  omap (λ ev, match ev with EvBroadcast n p => Some (n, p) | _ => None end) tr.

Definition logs_added (tr : list event) : list TaskLog :=
  omap (λ ev, match ev with EvAddLog l => Some l | _ => None end) tr.

(** The task a notification is about, read from its payload. *)
Definition notified_task (n : Notification) : option Z :=
  match dict_get (n_data n) "task_id" with
  | Some (PyInt tid) => Some tid
  | _ => None
  end.

(** ** Closed forms, paths and predicates used by the properties *)

(** The row that [scalar_one_or_none()] returns for the configured key. *)
Definition lookup_manager (cfg : AutopilotConfig) (c : Store) : option (Z * Entity) :=
  entity_with_id (manager_id cfg) c.

Definition guard (cfg : AutopilotConfig) : bool :=
  enabled cfg && py_truthy (manager_id cfg).

Definition assigned_line (me : Z * Entity) (l : list (Z * Task)) : string :=
  "Autopilot: Assigned " +:+ py_str_int (Z.of_nat (length (processed_entry me <$> l))) +:+
  " tasks to " +:+ entity_name me.2.

(** [body_path cfg env c r c' evs]: from the committed state [c], the body
    of the [try] ends with [r], leaves [c'] committed and makes the calls
    [evs]. One constructor for each way through lines 48-93. *)
Inductive body_path (cfg : AutopilotConfig) (env : environment) (c : Store)
    : outcome unit → Store → list event → Prop :=
| path_idle :
    guard cfg = false →
    body_path cfg env c (Returns ()) c [EvSleep 5]
| path_lookup_raises e :
    guard cfg = true →
    env_fault env AtSelectEntity = Some e →
    body_path cfg env c (Raises e) c []
| path_manager_absent :
    guard cfg = true →
    env_fault env AtSelectEntity = None →
    lookup_manager cfg c = None →
    body_path cfg env c (Returns ()) c [EvSelectEntity (manager_id cfg); EvSleep 5]
| path_scan_raises me e :
    guard cfg = true →
    env_fault env AtSelectEntity = None →
    lookup_manager cfg c = Some me →
    env_fault env AtSelectPendingTasks = Some e →
    body_path cfg env c (Raises e) c [EvSelectEntity (manager_id cfg)]
| path_assign_raises me l e :
    guard cfg = true →
    env_fault env AtSelectEntity = None →
    lookup_manager cfg c = Some me →
    env_fault env AtSelectPendingTasks = None →
    assignable env (select_pending c) = (l, Some e) →
    body_path cfg env c (Raises e) c
      ([EvSelectEntity (manager_id cfg); EvSelectPendingTasks] ++ (l ≫= assign_events me))
| path_nothing_unassigned me :
    guard cfg = true →
    env_fault env AtSelectEntity = None →
    lookup_manager cfg c = Some me →
    env_fault env AtSelectPendingTasks = None →
    assignable env (select_pending c) = ([], None) →
    body_path cfg env c (Returns ()) c
      [EvSelectEntity (manager_id cfg); EvSelectPendingTasks; EvSleep 5]
| path_commit_raises me l e :
    guard cfg = true →
    env_fault env AtSelectEntity = None →
    lookup_manager cfg c = Some me →
    env_fault env AtSelectPendingTasks = None →
    assignable env (select_pending c) = (l, None) →
    l ≠ [] →
    env_fault env AtCommit = Some e →
    body_path cfg env c (Raises e) c
      ([EvSelectEntity (manager_id cfg); EvSelectPendingTasks] ++ (l ≫= assign_events me))
| path_broadcast_raises me l bs e :
    guard cfg = true →
    env_fault env AtSelectEntity = None →
    lookup_manager cfg c = Some me →
    env_fault env AtSelectPendingTasks = None →
    assignable env (select_pending c) = (l, None) →
    l ≠ [] →
    env_fault env AtCommit = None →
    broadcastable env 0 (processed_entry me <$> l) = (bs, Some e) →
    body_path cfg env c (Raises e) (foldl (assign_one me) c l)
      ([EvSelectEntity (manager_id cfg); EvSelectPendingTasks] ++ (l ≫= assign_events me) ++
       [EvCommit; EvPrint (assigned_line me l)] ++ bs)
| path_assigned me l bs :
    guard cfg = true →
    env_fault env AtSelectEntity = None →
    lookup_manager cfg c = Some me →
    env_fault env AtSelectPendingTasks = None →
    assignable env (select_pending c) = (l, None) →
    l ≠ [] →
    env_fault env AtCommit = None →
    broadcastable env 0 (processed_entry me <$> l) = (bs, None) →
    body_path cfg env c (Returns ()) (foldl (assign_one me) c l)
      ([EvSelectEntity (manager_id cfg); EvSelectPendingTasks] ++ (l ≫= assign_events me) ++
       [EvCommit; EvPrint (assigned_line me l)] ++ bs ++ [EvSleep 5]).

(** What the [except Exception] clause makes of the outcome of the body. *)
Definition after_handler (r : outcome unit) (evs : list event)
    : outcome unit * list event :=
  match r with
  | Returns a => (Returns a, evs)
  | Raises e =>
      if isinstance_Exception e
      then (Returns (), evs ++ [EvPrint ("Autopilot error: " +:+ exc_str e); EvSleep 5])
      else (Raises e, evs)
  end.

(** Every write and every broadcast of an iteration is about a task that
    the scan returned without assignee, and names the configured manager. *)
Definition event_provenance (cfg : AutopilotConfig) (env : environment) (c : Store)
    (ev : event) : Prop :=
  match ev with
  | EvAppendAssignee tid eid =>
      ∃ me t, lookup_manager cfg c = Some me ∧ eid = me.1 ∧
              (tid, t) ∈ select_pending c ∧ task_assignees t = []
  | EvAddLog lg =>
      ∃ me task, lookup_manager cfg c = Some me ∧
                 task ∈ select_pending c ∧ task_assignees task.2 = [] ∧
                 lg = audit_log me task
  | EvBroadcast n p =>
      ∃ me task clock j,
        lookup_manager cfg c = Some me ∧ env_datetime env = Some clock ∧
        task ∈ select_pending c ∧ task_assignees task.2 = [] ∧
        n = task_notification env j clock (processed_entry me task) ∧
        p = task_project_id task.2
  | _ => True
  end.

Definition db_one_task : Store :=
  mkStore {[ 1 := mkEntity "Ada" ]}
          {[ 10 := mkTask "Write docs" PENDING 3 [] ]}
          [].

(** What one iteration returns and the world it leaves, from a database
    with nothing pending in any session. *)
Definition outcome_of (cfg : AutopilotConfig) (env : environment) (db : Store)
    : outcome unit :=
  (iteration cfg env (start db)).1.

Definition world_after (cfg : AutopilotConfig) (env : environment) (db : Store)
    : world :=
  (iteration cfg env (start db)).2.

(** A storage failure at the task scan of the first turn, then a turn
    without failure. *)
Definition script_storage_failure : list tick :=
  [mkTick (mkConfig true (Some 1))
     (autopilot_module (λ _, "t")
        (λ p, match p with
              | AtSelectPendingTasks =>
                  Some (PyExc (ClsException "OperationalError") "database is locked")
              | _ => None
              end));
   mkTick (mkConfig true (Some 1)) (autopilot_module (λ _, "t") no_faults)].

(** The order of writes, commit and broadcasts in a trace: assignments and
    log entries come before the one commit, broadcasts after it. *)
Fixpoint commit_then_broadcast (committed_seen : bool) (tr : list event) : bool :=
  match tr with
  | [] => true
  | EvCommit :: tr' => negb committed_seen && commit_then_broadcast true tr'
  | EvBroadcast _ _ :: tr' => committed_seen && commit_then_broadcast committed_seen tr'
  | (EvAppendAssignee _ _ | EvAddLog _) :: tr' =>
      negb committed_seen && commit_then_broadcast committed_seen tr'
  | _ :: tr' => commit_then_broadcast committed_seen tr'
  end.

(** The state that notification [n] describes is in the database [c]: the
    task it names has the manager among its assignees and the audit log has
    the entry with its message. *)
Definition notification_committed (cfg : AutopilotConfig) (c : Store)
    (n : Notification) : Prop :=
  ∃ tid t msg m,
    notified_task n = Some tid ∧
    dict_get (n_data n) "message" = Some (PyStr msg) ∧
    manager_id cfg = Some m ∧
    tasks c !! tid = Some t ∧ m ∈ task_assignees t ∧
    mkTaskLog tid msg "action" ∈ task_logs c.

(** Two pending tasks of one project: 10 is unassigned, 11 has entity 2. *)
Definition db_two_tasks : Store :=
  mkStore {[ 1 := mkEntity "Ada"; 2 := mkEntity "Bob" ]}
          {[ 10 := mkTask "Write docs" PENDING 3 [];
             11 := mkTask "Fix bug" PENDING 3 [2] ]}
          [].

Definition env_bound : environment :=
  mkEnv (Some (λ _, DateTime 2024 1 5 9 3 7 0 eq_refl)) (λ _, "t") no_faults.

(** The wire shape of a [task_update] notification of sub-type [log]. *)
Definition log_wire_shape (n : Notification) : Prop :=
  n_type n = "task_update" ∧
  dict_keys (n_data n) = ["task_id"; "type"; "message"; "log_type"; "timestamp"] ∧
  dict_get (n_data n) "type" = Some (PyStr "log") ∧
  (∃ tid, dict_get (n_data n) "task_id" = Some (PyInt tid)) ∧
  (∃ msg, dict_get (n_data n) "message" = Some (PyStr msg)) ∧
  (∃ kind, dict_get (n_data n) "log_type" = Some (PyStr kind)) ∧
  (∃ ts, dict_get (n_data n) "timestamp" = Some (PyStr ts) ∧ is_iso8601 ts = true).

Section handler_closed_form.

Variable websocket : manager.connection.
Variable send_fault : nat → option py_exception.






End handler_closed_form.

(** ** More of [routers/tasks.py], [routers/ui.py] and [routers/autopilot.py] *)

(** [l.remove(x)] on a Python list: the first item equal to [x] goes. The
    callers test [x in l] first, so the [ValueError] of an absent item
    never arises; here an absent item leaves the list as it is. *)
Fixpoint py_list_remove (x : Z) (l : list Z) : list Z :=
  match l with
  | [] => []
  | y :: l' => if bool_decide (y = x) then l' else y :: py_list_remove x l'
  end.

Definition without_assignee (eid : Z) (t : Task) : Task :=
  mkTask (task_title t) (task_status t) (task_project_id t)
         (py_list_remove eid (task_assignees t)).

(** [task.assignees.remove(entity)] on the object the session holds for
    primary key [tid]. *)
Definition remove_assignee (tid : Z) (eid : Z) (s : Store) : Store :=
  set_tasks (alter (without_assignee eid) tid (tasks s)) s.

(** [GET /tasks/{task_id}] (lines 69-90), for the columns of this
    development: the row with its assignees, or 404. *)
Definition get_task (task_id : Z) (db : Store) : http_result (Z * Task) :=
  match tasks db !! task_id with
  | None => HTTPException 404 "Task not found"
  | Some task => Response (task_id, task)
  end.

(** [DELETE /tasks/{task_id}/unassign/{entity_id}] (lines 198-224): the
    response and the database after the request. *)
Definition unassign_task (task_id entity_id : Z) (db : Store)
    : http_result (Z * Task) * Store :=
  match tasks db !! task_id with
  | None => (HTTPException 404 "Task not found", db)
  | Some task =>
      match entities db !! entity_id with
      | None => (HTTPException 404 "Entity not found", db)
      | Some entity =>
          if bool_decide (entity_id ∈ task_assignees task) then
            let db' := remove_assignee task_id entity_id db in
            (Response (task_id, refresh db' task_id task), db')
          else
            (Response (task_id, task), db)
      end
  end.

(** [GET /tasks/{task_id}/logs] (lines 267-278): the entries of the task,
    latest first. Entries are kept in the order of their insertion, taken
    as the order of [created_at]; that column is filled by [models.py],
    which is not among the sources, so the properties of this list are
    stated up to order. No look at the task itself: a key without task
    gets the empty list, not a 404. *)
Definition get_task_logs (task_id : Z) (db : Store) : list TaskLog :=
  reverse (filter (λ lg, log_task_id lg = task_id) (task_logs db)).

(** The columns that [create_comment] sets (lines 241-245). *)
Record Comment := mkComment {
  comment_content : string;
  comment_task_id : Z;
  comment_author_id : Z
}.

(** The request body of [POST /comments]. *)
Record CommentCreate := mkCommentCreate {
  cc_content : string;
  cc_task_id : Z
}.

(** [POST /comments] (lines 231-249): the response and the comment table
    after the request; the author is always entity 1. *)
Definition create_comment (comment : CommentCreate) (db : Store)
    (comments : list Comment) : http_result Comment * list Comment :=
  match tasks db !! cc_task_id comment with
  | None => (HTTPException 404 "Task not found", comments)
  | Some _ =>
      let db_comment := mkComment (cc_content comment) (cc_task_id comment) 1 in
      (Response db_comment, comments ++ [db_comment])
  end.

(** [GET /tasks/{task_id}/comments] (lines 252-264): oldest first, with
    the order of insertion taken as the order of [created_at] (see
    [get_task_logs]). *)
Definition get_task_comments (task_id : Z) (comments : list Comment) : list Comment :=
  filter (λ c, comment_task_id c = task_id) comments.

(** [POST /ui/tasks/{task_id}/assign] ([routers/ui.py], lines 229-254), for
    a JSON body with an integer [entity_id]; [action] is the value of the
    key of that name, if the body has it. The response body is the constant
    [{"ok": True}]. *)
Definition ui_assign_task (task_id : Z) (entity_id : Z) (action : option string)
    (db : Store) : http_result unit * Store :=
  let action := default "assign" action in
  match tasks db !! task_id with
  | None => (HTTPException 404 "Task not found", db)
  | Some task =>
      match entities db !! entity_id with
      | None => (HTTPException 404 "Entity not found", db)
      | Some entity =>
          if String.eqb action "assign" && bool_decide (entity_id ∉ task_assignees task)
          then (Response (), append_assignee task_id entity_id db)
          else if String.eqb action "unassign" &&
                  bool_decide (entity_id ∈ task_assignees task)
          then (Response (), remove_assignee task_id entity_id db)
          else (Response (), db)
      end
  end.

(** The pending tasks without assignee, which the policy of the autopilot
    is about. *)
Definition unassigned_pending (c : Store) : list (Z * Task) :=
  filter (λ x, task_assignees x.2 = []) (select_pending c).

(** No task lists an entity twice, and every assignee is an entity of the
    database. *)
Definition assignees_consistent (db : Store) : Prop :=
  ∀ tid t, tasks db !! tid = Some t →
    NoDup (task_assignees t) ∧
    ∀ eid, eid ∈ task_assignees t → is_Some (entities db !! eid).

(** [db'] has the rows of [db] and possibly more assignees and audit log
    entries: nothing is deleted and no other column changes. *)
Definition only_appends (db db' : Store) : Prop :=
  entities db' = entities db ∧
  task_logs db `prefix_of` task_logs db' ∧
  ∀ tid,
    match tasks db !! tid, tasks db' !! tid with
    | Some t, Some t' =>
        task_title t' = task_title t ∧ task_status t' = task_status t ∧
        task_project_id t' = task_project_id t ∧
        task_assignees t `prefix_of` task_assignees t'
    | None, None => True
    | _, _ => False
    end.

(** What the three assignment endpoints may change of a database: the
    assignee list of the one task. *)
Definition only_assignees_of (task_id : Z) (db db' : Store) : Prop :=
  entities db' = entities db ∧
  task_logs db' = task_logs db ∧
  (∀ tid, tid ≠ task_id → tasks db' !! tid = tasks db !! tid) ∧
  match tasks db !! task_id, tasks db' !! task_id with
  | Some t, Some t' =>
      task_title t' = task_title t ∧ task_status t' = task_status t ∧
      task_project_id t' = task_project_id t
  | None, None => True
  | _, _ => False
  end.

(** The steps 2 to 5 of an iteration meet no failure. *)
Definition no_fault_before_broadcast (env : environment) : Prop :=
  env_fault env AtSelectEntity = None ∧
  env_fault env AtSelectPendingTasks = None ∧
  (∀ tid, env_fault env (AtAssign tid) = None) ∧
  env_fault env AtCommit = None.

(** A database in which the only pending task has an assignee. *)
Definition db_settled : Store :=
  mkStore {[ 1 := mkEntity "Ada" ]}
          {[ 10 := mkTask "Write docs" PENDING 3 [1];
             12 := mkTask "Ship" COMPLETED 3 [] ]}
          [].

(** * Properties *)

(** ** The monad and the loops *)

Lemma bind_run {S A B} (m : SE S A) (f : A → SE S B) (w : S) :
  (m ≫= f) w =
  match m w with
  | (Returns a, w') => f a w'
  | (Raises e, w') => (Raises e, w')
  end.
Proof. reflexivity. Qed.

Ltac se_run :=
  unfold print, sleep;
  unfold mbind, mret, SE_bind, SE_ret, raise, emit, read_session, modify_session;
  cbn -[assign_unassigned broadcast_updates].

Lemma assign_unassigned_closed env me ts acc w :
  assign_unassigned env me ts acc w =
  (match (assignable env ts).2 with
   | None => Returns (acc ++ (processed_entry me <$> (assignable env ts).1))
   | Some e => Raises e
   end,
   World (committed w)
         (foldl (assign_one me) (session w) (assignable env ts).1)
         (trace w ++ ((assignable env ts).1 ≫= assign_events me))).
Proof.
  revert acc w. induction ts as [|task rest IH]; intros acc w.
  - destruct w. cbn. by rewrite !app_nil_r.
  - cbn [assign_unassigned assignable]. case_bool_decide as Hempty.
    + rewrite bind_run. unfold fault at 1.
      destruct (env_fault env (AtAssign task.1)) as [e|] eqn:Hf.
      * destruct w. cbn. by rewrite app_nil_r.
      * se_run. rewrite IH. cbn.
        rewrite <- !app_assoc. reflexivity.
    + apply IH.
Qed.

Lemma broadcast_updates_closed env k ps w :
  broadcast_updates env k ps w =
  (match (broadcastable env k ps).2 with
   | None => Returns ()
   | Some e => Raises e
   end,
   World (committed w) (session w) (trace w ++ (broadcastable env k ps).1)).
Proof.
  revert k w. induction ps as [|[task msg] rest IH]; intros k w.
  - destruct w. cbn. by rewrite app_nil_r.
  - cbn [broadcast_updates broadcastable]. rewrite bind_run.
    unfold datetime_utcnow. destruct (env_datetime env) as [clock|].
    + cbn -[broadcast_updates]. unfold fault at 1.
      destruct (env_fault env (AtBroadcast k)) as [e|].
      * destruct w. cbn. by rewrite app_nil_r.
      * se_run. rewrite IH. cbn.
        rewrite <- app_assoc. reflexivity.
    + destruct w. cbn. by rewrite app_nil_r.
Qed.

(** ** The paths through one iteration *)

Lemma iteration_body_path cfg env w :
  ∃ r c' s' evs,
    body_path cfg env (committed w) r c' evs ∧
    iteration_body cfg env w = (r, World c' s' (trace w ++ evs)).
Proof.
  unfold iteration_body. rewrite bind_run.
  destruct (guard cfg) eqn:Hg; unfold guard in Hg; rewrite Hg.
  2:{ exists (Returns ()), (committed w), (session w), [EvSleep 5].
      split; [by constructor|]. by destruct w. }
  unfold with_session, select_entity. rewrite !bind_run. unfold fault at 1.
  destruct (env_fault env AtSelectEntity) as [e|] eqn:Hf1.
  { exists (Raises e), (committed w), (committed w), [].
    split; [by constructor|]. se_run. by rewrite app_nil_r. }
  se_run. fold (lookup_manager cfg (committed w)).
  destruct (lookup_manager cfg (committed w)) as [me|] eqn:Hme.
  2:{ exists (Returns ()), (committed w), (committed w),
        [EvSelectEntity (manager_id cfg); EvSleep 5].
      split; [by constructor|]. se_run. by rewrite <- ?app_assoc. }
  unfold select_pending_tasks, fault.
  destruct (env_fault env AtSelectPendingTasks) as [e|] eqn:Hf2.
  { exists (Raises e), (committed w), (committed w), [EvSelectEntity (manager_id cfg)].
    split; [by econstructor|]. by se_run. }
  se_run. rewrite assign_unassigned_closed. se_run.
  destruct (assignable env (select_pending (committed w))) as [l [e|]] eqn:Hl; se_run.
  { eexists (Raises e), (committed w), (committed w), _.
    split; [by eapply path_assign_raises|]. by rewrite <- ?app_assoc. }
  destruct l as [|task l]; se_run.
  { eexists (Returns ()), (committed w), (committed w), _.
    split; [by eapply path_nothing_unassigned|]. by rewrite <- ?app_assoc. }
  unfold commit. destruct (env_fault env AtCommit) as [e|] eqn:Hf3; se_run.
  { eexists (Raises e), (committed w), (committed w), _.
    split; [by eapply path_commit_raises|]. by rewrite <- ?app_assoc. }
  rewrite broadcast_updates_closed. se_run.
  destruct (broadcastable env 0 (processed_entry me <$> task :: l)) as [bs [e|]] eqn:Hb;
    cbn in Hb; rewrite Hb; se_run.
  { eexists (Raises e), _, _, _.
    split; [by eapply path_broadcast_raises|]. se_run. by rewrite <- ?app_assoc. }
  eexists (Returns ()), _, _, _.
  split; [by eapply path_assigned|]. se_run. by rewrite <- ?app_assoc.
Qed.

Lemma iteration_path cfg env w :
  ∃ r c' s' evs,
    body_path cfg env (committed w) r c' evs ∧
    iteration cfg env w =
      ((after_handler r evs).1, World c' s' (trace w ++ (after_handler r evs).2)).
Proof.
  destruct (iteration_body_path cfg env w) as (r & c' & s' & evs & Hp & Hrun).
  exists r, c', s', evs. split; [done|].
  unfold iteration, try_except_Exception. rewrite Hrun.
  destruct r as [[]|e]; [done|]. cbn.
  destruct (isinstance_Exception e); [|done].
  se_run. by rewrite <- !app_assoc.
Qed.

Lemma iteration_start_path cfg env db :
  ∃ r c' s' evs,
    body_path cfg env db r c' evs ∧
    iteration cfg env (start db) =
      ((after_handler r evs).1, World c' s' (after_handler r evs).2).
Proof.
  destruct (iteration_path cfg env (start db)) as (r & c' & s' & evs & Hp & Hrun).
  by exists r, c', s', evs.
Qed.


(** ** Facts about the closed forms *)

Lemma elem_of_select_pending c k t :
  (k, t) ∈ select_pending c ↔ tasks c !! k = Some t ∧ task_status t = PENDING.
Proof.
  unfold select_pending. rewrite list_elem_of_filter, elem_of_map_to_list. cbn. tauto.
Qed.

Lemma NoDup_select_pending c : NoDup (select_pending c).*1.
Proof.
  unfold select_pending.
  eapply sublist_NoDup; [apply (NoDup_fst_map_to_list (tasks c))|].
  apply fmap_sublist, sublist_filter.
Qed.

Lemma assignable_sublist env ts : (assignable env ts).1 `sublist_of` ts.
Proof.
  induction ts as [|task rest IH]; cbn; [constructor|].
  case_bool_decide.
  - destruct (env_fault env (AtAssign task.1)); cbn.
    + apply sublist_nil_l.
    + by constructor.
  - by constructor.
Qed.

Lemma assignable_unassigned env ts x :
  x ∈ (assignable env ts).1 → x ∈ ts ∧ task_assignees x.2 = [].
Proof.
  induction ts as [|task rest IH]; cbn; [by intros ?%elem_of_nil|].
  case_bool_decide as Hempty.
  - destruct (env_fault env (AtAssign task.1)); cbn.
    + by intros ?%elem_of_nil.
    + intros [->|Hin]%elem_of_cons; [split; [left|done]|].
      destruct (IH Hin). split; [by right|done].
  - intros Hin. destruct (IH Hin). split; [by right|done].
Qed.


Lemma assignable_no_faults env ts :
  (∀ tid, env_fault env (AtAssign tid) = None) →
  assignable env ts = (filter (λ x, task_assignees x.2 = []) ts, None).
Proof.
  intros Hnf. induction ts as [|task rest IH]; [done|].
  cbn [assignable]. rewrite filter_cons. case_bool_decide as Hempty.
  - rewrite Hnf, IH. cbn. by rewrite decide_True.
  - rewrite IH. by rewrite decide_False.
Qed.

Lemma foldl_assign_one_entities me l c :
  entities (foldl (assign_one me) c l) = entities c.
Proof. revert c. induction l as [|x l IH]; intros c; [done|]. cbn. by rewrite IH. Qed.

Lemma foldl_assign_one_logs me l c :
  task_logs (foldl (assign_one me) c l) = task_logs c ++ (audit_log me <$> l).
Proof.
  revert c. induction l as [|x l IH]; intros c; cbn.
  - by rewrite app_nil_r.
  - rewrite IH. cbn. by rewrite <- app_assoc.
Qed.

Lemma foldl_assign_one_other me l c k :
  k ∉ l.*1 → tasks (foldl (assign_one me) c l) !! k = tasks c !! k.
Proof.
  revert c. induction l as [|x l IH]; intros c Hk; [done|].
  cbn in *. apply not_elem_of_cons in Hk as [Hne Hk].
  rewrite IH by done. cbn. by rewrite lookup_alter_ne.
Qed.

Lemma foldl_assign_one_assigned me l c k t :
  NoDup l.*1 → (k, t) ∈ l → tasks c !! k = Some t →
  tasks (foldl (assign_one me) c l) !! k = Some (with_assignee me.1 t).
Proof.
  revert c. induction l as [|x l IH]; intros c Hnd Hin Hk; [by apply elem_of_nil in Hin|].
  cbn in Hnd. apply NoDup_cons in Hnd as [Hx Hnd].
  apply elem_of_cons in Hin as [<-|Hin]; cbn.
  - rewrite foldl_assign_one_other by done. cbn.
    rewrite lookup_alter_eq, Hk. done.
  - apply IH; [done..|]. cbn. rewrite lookup_alter_ne; [done|].
    intros Heq. apply Hx. rewrite Heq. apply list_elem_of_fmap. by exists (k, t).
Qed.


Lemma broadcastable_events env k ps ev :
  ev ∈ (broadcastable env k ps).1 →
  ∃ clock j entry,
    env_datetime env = Some clock ∧ entry ∈ ps ∧
    ev = EvBroadcast (task_notification env j clock entry) (task_project_id entry.1.2).
Proof.
  revert k. induction ps as [|entry rest IH]; intros k; cbn; [by intros ?%elem_of_nil|].
  destruct (env_datetime env) as [clock|] eqn:Hd; [|by intros ?%elem_of_nil].
  destruct (env_fault env (AtBroadcast k)); cbn; [by intros ?%elem_of_nil|].
  intros [->|Hin]%elem_of_cons.
  - exists clock, k, entry. split_and!; [done|by left|done].
  - destruct (IH _ Hin) as (clock' & j & entry' & Hc & Hin' & ->).
    exists clock', j, entry'. split_and!; [done|by right|done].
Qed.

Lemma broadcastable_unbound env k ps :
  env_datetime env = None → (broadcastable env k ps).1 = [].
Proof. intros Hd. destruct ps; cbn; [done|]. by rewrite Hd. Qed.

(** ** Where the events of an iteration come from *)

Lemma assign_events_provenance cfg env c me l ev :
  lookup_manager cfg c = Some me →
  (∀ x, x ∈ l → x ∈ select_pending c ∧ task_assignees x.2 = []) →
  ev ∈ l ≫= assign_events me → event_provenance cfg env c ev.
Proof.
  intros Hme Hl (task & Hev & Hin)%list_elem_of_bind.
  destruct (Hl _ Hin) as [Hsel Hempty]. unfold assign_events in Hev.
  apply elem_of_cons in Hev as [->|Hev]; cbn.
  { exists me, task.2. by destruct task. }
  apply elem_of_cons in Hev as [->|Hev]; cbn.
  { by exists me, task. }
  by apply elem_of_nil in Hev.
Qed.

Lemma broadcast_events_provenance cfg env c me l bs o ev :
  lookup_manager cfg c = Some me →
  (∀ x, x ∈ l → x ∈ select_pending c ∧ task_assignees x.2 = []) →
  broadcastable env 0 (processed_entry me <$> l) = (bs, o) →
  ev ∈ bs → event_provenance cfg env c ev.
Proof.
  intros Hme Hl Hb Hin.
  change bs with (bs, o).1 in Hin. rewrite <- Hb in Hin.
  apply broadcastable_events in Hin as (clock & j & entry & Hd & Hentry & ->).
  apply list_elem_of_fmap in Hentry as (task & -> & Htask).
  destruct (Hl _ Htask) as [Hsel Hempty]. cbn.
  by exists me, task, clock, j.
Qed.

Lemma after_handler_events r evs ev :
  ev ∈ (after_handler r evs).2 →
  ev ∈ evs ∨ ∃ e, r = Raises e ∧
    (ev = EvPrint ("Autopilot error: " +:+ exc_str e) ∨ ev = EvSleep 5).
Proof.
  destruct r as [a|e]; cbn; [by left|].
  destruct (isinstance_Exception e); cbn; [|by left].
  rewrite elem_of_app, !elem_of_cons, elem_of_nil.
  intros [?|[->|[->|[]]]]; eauto.
Qed.

Lemma assignable_from_scan env c l o x :
  assignable env (select_pending c) = (l, o) →
  x ∈ l → x ∈ select_pending c ∧ task_assignees x.2 = [].
Proof.
  intros Hl Hx. apply (assignable_unassigned env). by rewrite Hl.
Qed.

Lemma body_path_provenance cfg env c r c' evs ev :
  body_path cfg env c r c' evs →
  ev ∈ (after_handler r evs).2 → event_provenance cfg env c ev.
Proof.
  intros Hp Hin. apply after_handler_events in Hin as [Hin|(e & _ & [->| ->])]; [|done..].
  destruct Hp;
    rewrite ?elem_of_app, ?elem_of_cons, ?elem_of_nil in Hin;
    repeat match goal with
    | H : _ ∨ _ |- _ => destruct H
    | H : False |- _ => destruct H
    | H : ev = _ |- _ => subst ev
    end; try exact I.
  all: first
    [ eapply assign_events_provenance; [eassumption| |eassumption];
      intros x Hx; eapply assignable_from_scan; eassumption
    | eapply broadcast_events_provenance; [eassumption| |eassumption|eassumption];
      intros x Hx; eapply assignable_from_scan; eassumption ].
Qed.

(** The database that an iteration leaves committed. *)
Lemma body_path_committed cfg env c r c' evs :
  body_path cfg env c r c' evs →
  c' = c ∨
  ∃ me l, lookup_manager cfg c = Some me ∧
          (assignable env (select_pending c)).1 = l ∧
          c' = foldl (assign_one me) c l.
Proof.
  destruct 1; try (by left); right; exists me, l;
    match goal with H : assignable _ _ = _ |- _ => by rewrite H end.
Qed.



(** The module as written never reaches the broadcaster. *)
Lemma body_path_unbound cfg env c r c' evs :
  env_datetime env = None →
  body_path cfg env c r c' evs → broadcasts (after_handler r evs).2 = [].
Proof.
  intros Hd Hp.
  destruct (broadcasts (after_handler r evs).2) as [|[n p] bs] eqn:Hb; [done|].
  assert ((n, p) ∈ broadcasts (after_handler r evs).2) as Hin by (rewrite Hb; left).
  apply list_elem_of_omap in Hin as (ev & Hev & Hsome).
  destruct ev; try discriminate. injection Hsome as -> ->.
  apply (body_path_provenance _ _ _ _ _ _ _ Hp) in Hev.
  destruct Hev as (me & task & clock & j & _ & Hclock & _). congruence.
Qed.

(** * The claims *)

(** C1. One iteration with [enabled=true], a manager present in storage and
    exactly one pending task without assignee should assign the task to the
    manager, add one audit log entry and broadcast one [task_update]
    notification. On the module as written the assignment and the log entry
    are committed, but evaluating the payload raises [NameError] for the
    unbound name [datetime]: the [except] clause prints the error and no
    notification reaches the broadcaster. *)
Theorem autopilot_single_task_never_notified (manager_clock : nat → string) :
  let '(r, w') :=
    iteration (mkConfig true (Some 1)) (autopilot_module manager_clock no_faults)
              (start db_one_task) in
  r = Returns () ∧
  tasks (committed w') !! 10 = Some (mkTask "Write docs" PENDING 3 [1]) ∧
  task_logs (committed w') =
    [mkTaskLog 10 "Autopilot: Manager Ada self-assigned task 'Write docs'" "action"] ∧
  length (broadcasts (trace w')) = 0%nat ∧
  trace w' =
    [EvSelectEntity (Some 1); EvSelectPendingTasks;
     EvAppendAssignee 10 1;
     EvAddLog (mkTaskLog 10 "Autopilot: Manager Ada self-assigned task 'Write docs'"
                         "action");
     EvCommit;
     EvPrint "Autopilot: Assigned 1 tasks to Ada";
     EvPrint "Autopilot error: name 'datetime' is not defined";
     EvSleep 5].
Proof. vm_compute. done. Qed.

(** On the module as written no iteration broadcasts anything, whatever the
    configuration, the database and the failures. *)
Lemma autopilot_module_never_broadcasts cfg manager_clock faults w :
  broadcasts (trace (iteration cfg (autopilot_module manager_clock faults) w).2) =
  broadcasts (trace w).
Proof.
  destruct (iteration_path cfg (autopilot_module manager_clock faults) w)
    as (r & c' & s' & evs & Hp & ->).
  cbn. unfold broadcasts at 1. rewrite omap_app.
  fold (broadcasts (after_handler r evs).2).
  rewrite (body_path_unbound _ (autopilot_module manager_clock faults) _ _ _ _ eq_refl Hp).
  by rewrite app_nil_r.
Qed.

Lemma iteration_start_cases cfg env db :
  ∃ r c' evs,
    body_path cfg env db r c' evs ∧
    outcome_of cfg env db = (after_handler r evs).1 ∧
    committed (world_after cfg env db) = c' ∧
    trace (world_after cfg env db) = (after_handler r evs).2.
Proof.
  unfold outcome_of, world_after.
  destruct (iteration_start_path cfg env db) as (r & c' & s' & evs & Hp & ->).
  by exists r, c', evs.
Qed.


Lemma guard_true cfg m :
  enabled cfg = true → manager_id cfg = Some m → m ≠ 0 → guard cfg = true.
Proof.
  unfold guard. intros -> -> Hm. cbn. by apply negb_true_iff, Z.eqb_neq.
Qed.

Lemma singleton_by_key (l : list (Z * Task)) tid t :
  NoDup l.*1 → (tid, t) ∈ l → (∀ x, x ∈ l → x.1 = tid) → l = [(tid, t)].
Proof.
  intros Hnd Hin Hkey. destruct l as [|x l]; [by apply elem_of_nil in Hin|].
  cbn in Hnd. apply NoDup_cons in Hnd as [Hx Hnd].
  destruct l as [|y l].
  - apply elem_of_cons in Hin as [->|Hin]; [done|]. by apply elem_of_nil in Hin.
  - exfalso. apply Hx. rewrite (Hkey x) by left.
    rewrite <- (Hkey y) by (right; left). left.
Qed.

(** With [datetime] bound and no failure, the iteration of C1 does all that
    the claim says: the one unassigned pending task gets the manager as its
    only assignee, one audit log entry is added and one notification, for
    the project of the task, is broadcast. *)
Lemma autopilot_single_task_when_bound cfg env db m manager tid t clock
    (Hen : enabled cfg = true) (Hm : manager_id cfg = Some m) (Hm0 : m ≠ 0)
    (Hmgr : entities db !! m = Some manager)
    (Htask : tasks db !! tid = Some t)
    (Hpending : task_status t = PENDING) (Hempty : task_assignees t = [])
    (Huniq : ∀ k t', tasks db !! k = Some t' → task_status t' = PENDING →
                     task_assignees t' = [] → k = tid)
    (Hclock : env_datetime env = Some clock)
    (Hnf : ∀ p, env_fault env p = None) :
  let msg := "Autopilot: Manager " +:+ entity_name manager +:+
             " self-assigned task '" +:+ task_title t +:+ "'" in
  outcome_of cfg env db = Returns () ∧
  tasks (committed (world_after cfg env db)) !! tid =
    Some (mkTask (task_title t) PENDING (task_project_id t) [m]) ∧
  task_logs (committed (world_after cfg env db)) =
    task_logs db ++ [mkTaskLog tid msg "action"] ∧
  broadcasts (trace (world_after cfg env db)) =
    [(mkNotification "task_update"
        [("task_id", PyInt tid); ("type", PyStr "log"); ("message", PyStr msg);
         ("log_type", PyStr "action"); ("timestamp", PyStr (isoformat (clock 0%nat)))]
        (Some (task_project_id t)) (env_manager_clock env 0%nat),
      task_project_id t)].
Proof.
  cbn zeta.
  destruct (iteration_start_cases cfg env db) as (r & c' & evs & Hp & -> & -> & ->).
  pose proof (guard_true _ _ Hen Hm Hm0) as Hg.
  assert (lookup_manager cfg db = Some (m, manager)) as Hme.
  { unfold lookup_manager, entity_with_id. rewrite Hm. cbn. by rewrite Hmgr. }
  assert (assignable env (select_pending db) = ([(tid, t)], None)) as Hl.
  { rewrite assignable_no_faults by (intros; apply Hnf). f_equal.
    apply singleton_by_key.
    - eapply sublist_NoDup; [apply NoDup_select_pending|].
      apply fmap_sublist, sublist_filter.
    - apply list_elem_of_filter. split; [done|]. by apply elem_of_select_pending.
    - intros [k t'] [Hk Hsel]%list_elem_of_filter.
      apply elem_of_select_pending in Hsel as [? ?]. cbn in *. eauto. }
  assert (broadcastable env 0 (processed_entry (m, manager) <$> [(tid, t)]) =
          ([EvBroadcast (task_notification env 0 clock (processed_entry (m, manager) (tid, t)))
                        (task_project_id t)], None)) as Hb.
  { cbn. by rewrite Hclock, Hnf. }
  destruct Hp; try congruence;
    repeat match goal with
    | H : env_fault env _ = Some _ |- _ => rewrite Hnf in H; discriminate H
    end.
  all: assert (me = (m, manager)) by congruence; subst me.
  all: assert (l = [(tid, t)]) by congruence; subst l.
  all: match goal with
       | H : broadcastable _ _ _ = _ |- _ => rewrite Hb in H; injection H as <-
       end; try discriminate.
  cbn. split_and!; try done.
  rewrite lookup_alter_eq, Htask. cbn. unfold with_assignee.
  by rewrite Hpending, Hempty.
Qed.


(** The guard of line 48 tests the truth value of [manager_id]: an
    identifier 0 counts as no identifier, even when entity 0 exists. *)
Example autopilot_manager_zero_is_unset :
  let db := mkStore {[ 0 := mkEntity "Root" ]}
                    {[ 10 := mkTask "Write docs" PENDING 3 [] ]} [] in
  trace (world_after (mkConfig true (Some 0)) env_bound db) = [EvSleep 5] ∧
  committed (world_after (mkConfig true (Some 0)) env_bound db) = db.
Proof. vm_compute. done. Qed.







Lemma commit_then_broadcast_assign me l tr :
  commit_then_broadcast false ((l ≫= assign_events me) ++ tr) =
  commit_then_broadcast false tr.
Proof. induction l as [|x l IH]; [done|]. cbn. apply IH. Qed.

Lemma broadcastable_all_broadcasts env k ps :
  Forall (λ ev, is_broadcast ev = true) (broadcastable env k ps).1.
Proof.
  apply Forall_forall. intros ev Hev.
  apply broadcastable_events in Hev as (? & ? & ? & _ & _ & ->). done.
Qed.

Lemma commit_then_broadcast_broadcasts bs tr :
  Forall (λ ev, is_broadcast ev = true) bs →
  commit_then_broadcast true (bs ++ tr) = commit_then_broadcast true tr.
Proof.
  induction 1 as [|ev bs Hev _ IH]; [done|].
  destruct ev; try discriminate. cbn. apply IH.
Qed.

Lemma commit_then_broadcast_handler b tr s :
  commit_then_broadcast b (tr ++ [EvPrint s; EvSleep 5]) = commit_then_broadcast b tr.
Proof.
  revert b. induction tr as [|ev tr IH]; intros b; [done|].
  destruct ev; cbn; by rewrite ?IH.
Qed.

Lemma body_path_commit_then_broadcast cfg env c r c' evs :
  body_path cfg env c r c' evs →
  commit_then_broadcast false (after_handler r evs).2 = true.
Proof.
  intros Hp.
  assert (∀ me l, commit_then_broadcast false (l ≫= assign_events me) = true) as Hassign.
  { intros me l. rewrite <- (app_nil_r (l ≫= _)).
    by rewrite commit_then_broadcast_assign. }
  assert (commit_then_broadcast false evs = true) as Hevs.
  { destruct Hp; try done; cbn [app commit_then_broadcast]; try apply Hassign.
    all: rewrite commit_then_broadcast_assign; cbn [app commit_then_broadcast negb andb].
    all: match goal with
         | H : broadcastable ?env 0 ?ps = (?bs, _) |- _ =>
             pose proof (broadcastable_all_broadcasts env 0 ps) as Hall;
             rewrite H in Hall; cbn in Hall
         end.
    - rewrite <- (app_nil_r bs). by rewrite commit_then_broadcast_broadcasts.
    - by rewrite commit_then_broadcast_broadcasts. }
  destruct r as [a|e]; cbn; [done|].
  destruct (isinstance_Exception e); cbn; [|done].
  by rewrite commit_then_broadcast_handler.
Qed.

Lemma lookup_manager_Some cfg c me :
  lookup_manager cfg c = Some me →
  manager_id cfg = Some me.1 ∧ entities c !! me.1 = Some me.2.
Proof.
  unfold lookup_manager, entity_with_id.
  destruct (manager_id cfg) as [m|]; cbn; [|done].
  destruct (entities c !! m) as [e|] eqn:He; cbn; [|done].
  by intros [= <-].
Qed.

Lemma assign_events_not_broadcast me l n p :
  EvBroadcast n p ∉ l ≫= assign_events me.
Proof.
  intros (task & Hev & _)%list_elem_of_bind. unfold assign_events in Hev.
  rewrite !elem_of_cons, elem_of_nil in Hev. by destruct Hev as [?|[?|[]]].
Qed.

(** Case analysis on where a broadcast sits in the events of a path. *)
Ltac broadcast_cases Hin :=
  rewrite ?elem_of_app, ?elem_of_cons, ?elem_of_nil in Hin;
  repeat match goal with
  | H : _ ∨ _ |- _ => destruct H
  | H : False |- _ => destruct H
  | H : EvBroadcast _ _ = _ |- _ => discriminate H
  | H : EvBroadcast _ _ ∈ _ ≫= assign_events _ |- _ =>
      by apply assign_events_not_broadcast in H
  end.

(** A broadcast is made only for a task that this iteration assigned, and
    only once the assignments are committed. *)
Lemma body_path_broadcast_origin cfg env c r c' evs n p :
  body_path cfg env c r c' evs →
  EvBroadcast n p ∈ (after_handler r evs).2 →
  ∃ me l task clock j,
    lookup_manager cfg c = Some me ∧
    assignable env (select_pending c) = (l, None) ∧
    c' = foldl (assign_one me) c l ∧
    task ∈ l ∧
    n = task_notification env j clock (processed_entry me task) ∧
    p = task_project_id task.2.
Proof.
  intros Hp Hin.
  apply after_handler_events in Hin as [Hin|(e & _ & [?|?])]; [|done..].
  destruct Hp; broadcast_cases Hin.
  all: match goal with
       | Hb : broadcastable _ _ _ = (?bs, ?o), H : EvBroadcast _ _ ∈ ?bs |- _ =>
           change bs with (bs, o).1 in H; rewrite <- Hb in H;
           apply broadcastable_events in H as (clock & j & entry & _ & Hentry & Heq);
           apply list_elem_of_fmap in Hentry as (task & -> & Htask);
           injection Heq as -> ->;
           by exists me, l, task, clock, j
       end.
Qed.

Lemma assigned_task_committed cfg env c me l task :
  lookup_manager cfg c = Some me →
  assignable env (select_pending c) = (l, None) →
  task ∈ l →
  tasks (foldl (assign_one me) c l) !! task.1 = Some (with_assignee me.1 task.2) ∧
  audit_log me task ∈ task_logs (foldl (assign_one me) c l).
Proof.
  intros Hme Hl Htask. split.
  - apply foldl_assign_one_assigned.
    + eapply sublist_NoDup; [apply NoDup_select_pending|].
      apply fmap_sublist. change l with (l, @None py_exception).1. rewrite <- Hl.
      apply assignable_sublist.
    + by destruct task.
    + destruct (assignable_from_scan _ _ _ _ _ Hl Htask) as [Hsel _].
      destruct task as [k t]. by apply elem_of_select_pending in Hsel as [? _].
  - rewrite foldl_assign_one_logs. apply elem_of_app. right.
    apply list_elem_of_fmap. by exists task.
Qed.

(** C4. In every iteration the writes come before the one commit and the
    broadcasts after it, and each notification broadcast describes a state
    that the database then holds: the task it names has the manager among
    its assignees and the audit log has its message. *)
Theorem autopilot_commit_before_broadcast cfg env db :
  commit_then_broadcast false (trace (world_after cfg env db)) = true ∧
  Forall (λ np, notification_committed cfg (committed (world_after cfg env db)) np.1)
         (broadcasts (trace (world_after cfg env db))).
Proof.
  destruct (iteration_start_cases cfg env db) as (r & c' & evs & Hp & _ & -> & ->).
  split; [by eapply body_path_commit_then_broadcast|].
  apply Forall_forall. intros [n p] Hin. cbn.
  apply list_elem_of_omap in Hin as (ev & Hev & Hsome).
  destruct ev; try discriminate. injection Hsome as -> ->.
  destruct (body_path_broadcast_origin _ _ _ _ _ _ _ _ Hp Hev)
    as (me & l & task & clock & j & Hme & Hl & -> & Htask & -> & _).
  destruct (assigned_task_committed _ _ _ _ _ _ Hme Hl Htask) as [Hrow Hlog].
  destruct (lookup_manager_Some _ _ _ Hme) as [Hm _].
  exists task.1, (with_assignee me.1 task.2), (format_log_msg me task), me.1.
  split_and!; [done|done|done|done| |done].
  cbn. apply elem_of_app. right. left.
Qed.

(** With [datetime] bound, the order is visible in the trace of the one-task
    database. *)
Example autopilot_commit_before_broadcast_bound :
  let env := mkEnv (Some (λ _, DateTime 2024 1 5 9 3 7 0 eq_refl)) (λ _, "t") no_faults in
  trace (world_after (mkConfig true (Some 1)) env db_one_task) =
    [EvSelectEntity (Some 1); EvSelectPendingTasks;
     EvAppendAssignee 10 1;
     EvAddLog (mkTaskLog 10 "Autopilot: Manager Ada self-assigned task 'Write docs'"
                         "action");
     EvCommit;
     EvPrint "Autopilot: Assigned 1 tasks to Ada";
     EvBroadcast
       (mkNotification "task_update"
          [("task_id", PyInt 10); ("type", PyStr "log");
           ("message", PyStr "Autopilot: Manager Ada self-assigned task 'Write docs'");
           ("log_type", PyStr "action");
           ("timestamp", PyStr "2024-01-05T09:03:07")]
          (Some 3) "t") 3;
     EvSleep 5].
Proof. vm_compute. done. Qed.

(** ** Tasks that already have an assignee *)

Lemma assigned_not_assignable env c l o tid t :
  tasks c !! tid = Some t → task_assignees t ≠ [] →
  assignable env (select_pending c) = (l, o) → tid ∉ l.*1.
Proof.
  intros Htask Hne Hl ([k t'] & -> & Hin)%list_elem_of_fmap.
  destruct (assignable_from_scan _ _ _ _ _ Hl Hin) as [Hsel Hempty].
  apply elem_of_select_pending in Hsel as [Hrow _]. cbn in *. congruence.
Qed.

Lemma filter_audit_log_other me l tid :
  tid ∉ l.*1 → filter (λ lg, log_task_id lg = tid) (audit_log me <$> l) = [].
Proof.
  induction l as [|x l IH]; intros Hnot; [done|].
  cbn in Hnot. apply not_elem_of_cons in Hnot as [Hx Hnot].
  rewrite fmap_cons, filter_cons, decide_False; [by apply IH|].
  cbn. congruence.
Qed.

(** An iteration does not touch a task whose assignee collection is not
    empty: its row, the audit log entries of its key and the notifications
    about it stay as they were. *)
Lemma iteration_keeps_assigned cfg env db tid t :
  tasks db !! tid = Some t → task_assignees t ≠ [] →
  tasks (committed (world_after cfg env db)) !! tid = Some t ∧
  (∀ eid, EvAppendAssignee tid eid ∉ trace (world_after cfg env db)) ∧
  (∀ lg, lg ∈ logs_added (trace (world_after cfg env db)) → log_task_id lg ≠ tid) ∧
  filter (λ lg, log_task_id lg = tid) (task_logs (committed (world_after cfg env db))) =
    filter (λ lg, log_task_id lg = tid) (task_logs db) ∧
  (∀ n p, (n, p) ∈ broadcasts (trace (world_after cfg env db)) →
          notified_task n ≠ Some tid).
Proof.
  intros Htask Hne.
  destruct (iteration_start_cases cfg env db) as (r & c' & evs & Hp & _ & -> & ->).
  assert (∀ task, task ∈ select_pending db → task_assignees task.2 = [] → task.1 ≠ tid)
    as Hother.
  { intros [k t'] Hsel Hempty ?. cbn in *. subst k.
    apply elem_of_select_pending in Hsel as [Hrow _]. congruence. }
  split_and!.
  - destruct (body_path_committed _ _ _ _ _ _ Hp) as [->|(me & l & _ & Hl & ->)]; [done|].
    rewrite foldl_assign_one_other; [done|].
    eapply assigned_not_assignable; [done..|]. rewrite <- Hl. apply surjective_pairing.
  - intros eid Hev. apply (body_path_provenance _ _ _ _ _ _ _ Hp) in Hev.
    destruct Hev as (me & t' & _ & _ & Hsel & Hempty).
    by apply (Hother (tid, t')).
  - intros lg (ev & Hev & Hsome)%list_elem_of_omap.
    destruct ev; try discriminate. injection Hsome as ->.
    apply (body_path_provenance _ _ _ _ _ _ _ Hp) in Hev.
    destruct Hev as (me & task & _ & Hsel & Hempty & ->). cbn. by apply Hother.
  - destruct (body_path_committed _ _ _ _ _ _ Hp) as [->|(me & l & _ & Hl & ->)]; [done|].
    rewrite foldl_assign_one_logs, filter_app.
    rewrite filter_audit_log_other, app_nil_r; [done|].
    eapply assigned_not_assignable; [done..|]. rewrite <- Hl. apply surjective_pairing.
  - intros n p (ev & Hev & Hsome)%list_elem_of_omap.
    destruct ev; try discriminate. injection Hsome as -> ->.
    apply (body_path_provenance _ _ _ _ _ _ _ Hp) in Hev.
    destruct Hev as (me & task & clock & j & _ & _ & Hsel & Hempty & -> & _).
    cbn. intros [= Heq]. by apply (Hother task).
Qed.

(** C5. A pending task whose assignee collection is not empty when the
    iteration starts is left as it is: its row keeps its assignees, no
    audit log entry is created for it and no notification is broadcast for
    it. *)
Theorem autopilot_leaves_assigned_tasks cfg env db tid t
    (Htask : tasks db !! tid = Some t)
    (Hpending : task_status t = PENDING)
    (Hassigned : task_assignees t ≠ []) :
  tasks (committed (world_after cfg env db)) !! tid = Some t ∧
  (∀ eid, EvAppendAssignee tid eid ∉ trace (world_after cfg env db)) ∧
  (∀ lg, lg ∈ logs_added (trace (world_after cfg env db)) → log_task_id lg ≠ tid) ∧
  filter (λ lg, log_task_id lg = tid) (task_logs (committed (world_after cfg env db))) =
    filter (λ lg, log_task_id lg = tid) (task_logs db) ∧
  (∀ n p, (n, p) ∈ broadcasts (trace (world_after cfg env db)) →
          notified_task n ≠ Some tid).
Proof. by apply iteration_keeps_assigned. Qed.

Lemma autopilot_leaves_assigned_tasks_witness :
  tasks db_two_tasks !! 11 = Some (mkTask "Fix bug" PENDING 3 [2]) ∧
  tasks (committed (world_after (mkConfig true (Some 1)) env_bound db_two_tasks)) !! 11
    = Some (mkTask "Fix bug" PENDING 3 [2]).
Proof.
  split; [reflexivity|].
  apply (autopilot_leaves_assigned_tasks (mkConfig true (Some 1)) env_bound
           db_two_tasks 11 (mkTask "Fix bug" PENDING 3 [2]));
    [reflexivity|reflexivity|discriminate].
Defined.

(** ** The timestamp *)

Lemma is_digit_digit_char n : is_digit (digit_char n) = true.
Proof.
  unfold is_digit, digit_char.
  assert (n mod 10 < 10)%N as Hlt by (by apply N.mod_lt).
  generalize dependent (n mod 10)%N. intros r Hlt.
  rewrite N_ascii_embedding by lia.
  apply andb_true_iff. split; apply N.leb_le; lia.
Qed.

Lemma isoformat_is_iso8601 d : is_iso8601 (isoformat d) = true.
Proof.
  unfold is_iso8601.
  cbv [isoformat zero_padded String.append].
  destruct (dt_microsecond d =? 0)%N;
    cbv [iso_datetime_pattern matches_pattern Ascii.eqb Bool.eqb all_digits
         String.eqb negb andb];
    by rewrite !is_digit_digit_char.
Qed.

(** ** The notifications *)

Lemma task_notification_shape env k clock entry :
  log_wire_shape (task_notification env k clock entry).
Proof.
  unfold log_wire_shape. split_and!; try done; cbn; eauto.
  eexists. split; [done|]. apply isoformat_is_iso8601.
Qed.

Lemma after_handler_keeps r evs ev :
  ev ∈ evs → ev ∈ (after_handler r evs).2.
Proof.
  intros Hev. destruct r as [a|e]; cbn; [done|].
  destruct (isinstance_Exception e); cbn; [|done]. apply elem_of_app. by left.
Qed.

(** When an iteration broadcasts, the trace has the assignment and the audit
    log entry of every task that it assigned. *)
Lemma body_path_assigned_in_trace cfg env c r c' evs n p me l ev :
  body_path cfg env c r c' evs →
  EvBroadcast n p ∈ (after_handler r evs).2 →
  lookup_manager cfg c = Some me →
  assignable env (select_pending c) = (l, None) →
  ev ∈ l ≫= assign_events me → ev ∈ (after_handler r evs).2.
Proof.
  intros Hp Hin Hme Hl Hev. apply after_handler_keeps.
  apply after_handler_events in Hin as [Hin|(e & _ & [?|?])]; [|done..].
  destruct Hp; broadcast_cases Hin.
  all: repeat match goal with
       | H1 : ?x = Some ?a, H2 : ?x = Some ?b |- _ =>
           assert (a = b) by congruence; subst; clear H2
       | H1 : ?x = (?a, _), H2 : ?x = (?b, _) |- _ =>
           assert (a = b) by congruence; subst; clear H2
       end.
  all: rewrite !elem_of_app; auto.
Qed.

(** Where the name [datetime] is bound and no broadcast fails, the loop of
    lines 81-91 hands over a notification for each of the tasks it was
    given. *)
Lemma broadcastable_reaches env clock me l k x :
  env_datetime env = Some clock →
  (∀ j, env_fault env (AtBroadcast j) = None) →
  x ∈ l →
  (broadcastable env k (processed_entry me <$> l)).2 = None ∧
  ∃ j, EvBroadcast (task_notification env j clock (processed_entry me x))
                   (task_project_id x.2)
         ∈ (broadcastable env k (processed_entry me <$> l)).1.
Proof.
  intros Hclock Hnf. revert k. induction l as [|y l IH]; intros k Hin;
    [by apply elem_of_nil in Hin|].
  assert (∀ k', (broadcastable env k' (processed_entry me <$> l)).2 = None) as Hnone.
  { clear IH Hin. induction l as [|z l IHl]; intros k'; [done|].
    cbn [fmap list_fmap broadcastable]. rewrite Hclock, Hnf. cbn. apply IHl. }
  cbn [fmap list_fmap broadcastable]. rewrite Hclock, Hnf. cbn [fst snd].
  split; [apply Hnone|].
  apply elem_of_cons in Hin as [->|Hin].
  - exists k. left.
  - destruct (IH (S k) Hin) as [_ [j Hj]]. exists j. by right.
Qed.

(** C6. Every notification that an iteration broadcasts has the type
    [task_update] and a payload made of exactly [task_id], [type],
    [message], [log_type] and [timestamp]: [type] is [log], [task_id] is the
    key of a task that the iteration assigned, [message] is the message of
    the audit log entry it added for that task with the same [log_type],
    and [timestamp] is an ISO-8601 string. Such notifications are built:
    where the name [datetime] is bound, the manager exists and nothing
    fails, every pending task without assignee gets one, with exactly this
    payload, sent to the project of the task. *)
Theorem autopilot_notification_shape cfg env db :
  Forall (λ np,
            log_wire_shape np.1 ∧
            ∃ tid msg kind eid,
              dict_get (n_data np.1) "task_id" = Some (PyInt tid) ∧
              dict_get (n_data np.1) "message" = Some (PyStr msg) ∧
              dict_get (n_data np.1) "log_type" = Some (PyStr kind) ∧
              EvAppendAssignee tid eid ∈ trace (world_after cfg env db) ∧
              EvAddLog (mkTaskLog tid msg kind) ∈ trace (world_after cfg env db))
         (broadcasts (trace (world_after cfg env db))) ∧
  (∀ m manager clock tid t,
     enabled cfg = true → manager_id cfg = Some m → m ≠ 0 →
     entities db !! m = Some manager →
     env_datetime env = Some clock → (∀ p, env_fault env p = None) →
     tasks db !! tid = Some t → task_status t = PENDING → task_assignees t = [] →
     ∃ k n,
       (n, task_project_id t) ∈ broadcasts (trace (world_after cfg env db)) ∧
       n_type n = "task_update" ∧
       n_data n =
         [("task_id", PyInt tid);
          ("type", PyStr "log");
          ("message", PyStr ("Autopilot: Manager " +:+ entity_name manager +:+
                             " self-assigned task '" +:+ task_title t +:+ "'"));
          ("log_type", PyStr "action");
          ("timestamp", PyStr (isoformat (clock k)))] ∧
       n_project_id n = Some (task_project_id t) ∧
       is_iso8601 (isoformat (clock k)) = true).
Proof.
  destruct (iteration_start_cases cfg env db) as (r & c' & evs & Hp & _ & _ & ->).
  split.
  2:{ intros m manager clock tid t Hen Hm Hm0 Hmgr Hclock Hnf Hrow Hpending Hempty.
      pose proof (guard_true _ _ Hen Hm Hm0) as Hg.
      assert (lookup_manager cfg db = Some (m, manager)) as Hme.
      { unfold lookup_manager, entity_with_id. rewrite Hm. cbn. by rewrite Hmgr. }
      assert (assignable env (select_pending db) =
                (filter (λ x, task_assignees x.2 = []) (select_pending db), None)) as Hl
        by (apply assignable_no_faults; intros; apply Hnf).
      assert ((tid, t) ∈ filter (λ x, task_assignees x.2 = []) (select_pending db)) as Hin.
      { apply list_elem_of_filter. split; [done|]. by apply elem_of_select_pending. }
      destruct (broadcastable_reaches env clock (m, manager) _ 0 (tid, t) Hclock
                  (λ j, Hnf (AtBroadcast j)) Hin) as [Hnone [k Hk]].
      exists k, (task_notification env k clock (processed_entry (m, manager) (tid, t))).
      split_and!; [|done|done|done|apply isoformat_is_iso8601].
      apply list_elem_of_omap. eexists (EvBroadcast _ _). split; [|done].
      destruct Hp; try congruence;
        repeat match goal with
        | H : env_fault env _ = Some _ |- _ => rewrite Hnf in H; discriminate H
        end.
      - assert (filter (λ x, task_assignees x.2 = []) (select_pending db) = [])
          as Hnil by congruence.
        rewrite Hnil in Hin. by apply elem_of_nil in Hin.
      - assert (me = (m, manager)) as -> by congruence.
        assert (l = filter (λ x, task_assignees x.2 = []) (select_pending db)) as ->
          by congruence.
        match goal with
        | H : broadcastable _ _ _ = _ |- _ => rewrite H in Hnone; discriminate Hnone
        end.
      - assert (me = (m, manager)) as -> by congruence.
        assert (l = filter (λ x, task_assignees x.2 = []) (select_pending db)) as ->
          by congruence.
        match goal with
        | H : broadcastable _ _ _ = _ |- _ => rewrite H in Hk
        end.
        cbn [after_handler fst snd] in *. rewrite !elem_of_app. auto 10. }
  apply Forall_forall. intros [n p] Hin. cbn.
  apply list_elem_of_omap in Hin as (ev & Hev & Hsome).
  destruct ev; try discriminate. injection Hsome as -> ->.
  destruct (body_path_broadcast_origin _ _ _ _ _ _ _ _ Hp Hev)
    as (me & l & task & clock & j & Hme & Hl & _ & Htask & -> & _).
  split; [apply task_notification_shape|].
  exists task.1, (format_log_msg me task), "action", me.1.
  split_and!; try done.
  - eapply body_path_assigned_in_trace; [done..|].
    apply list_elem_of_bind. exists task. split; [left|done].
  - eapply body_path_assigned_in_trace; [done..|].
    apply list_elem_of_bind. exists task. split; [right; left|done].
Qed.

Lemma autopilot_notification_shape_witness :
  ∃ n,
    (n, 3) ∈ broadcasts (trace (world_after (mkConfig true (Some 1)) env_bound
                                  db_one_task)) ∧
    n_type n = "task_update" ∧
    n_data n =
      [("task_id", PyInt 10);
       ("type", PyStr "log");
       ("message", PyStr ("Autopilot: Manager " +:+ "Ada" +:+
                          " self-assigned task '" +:+ "Write docs" +:+ "'"));
       ("log_type", PyStr "action");
       ("timestamp", PyStr (isoformat (DateTime 2024 1 5 9 3 7 0 eq_refl)))].
Proof.
  destruct (proj2 (autopilot_notification_shape (mkConfig true (Some 1)) env_bound
                     db_one_task)
              1 (mkEntity "Ada") (λ _, DateTime 2024 1 5 9 3 7 0 eq_refl) 10
              (mkTask "Write docs" PENDING 3 [])
              eq_refl eq_refl ltac:(lia) eq_refl eq_refl (λ _, eq_refl)
              eq_refl eq_refl eq_refl)
    as (k & n & Hin & Htype & Hdata & _).
  exists n. split_and!; [exact Hin|exact Htype|exact Hdata].
Defined.

(** ** Assignment through the endpoints *)

Lemma assign_task_present db task_id entity_id task :
  tasks db !! task_id = Some task →
  is_Some (entities db !! entity_id) →
  assign_task task_id entity_id db =
    if bool_decide (entity_id ∉ task_assignees task)
    then (Response (task_id, with_assignee entity_id task),
          append_assignee task_id entity_id db)
    else (Response (task_id, task), db).
Proof.
  intros Htask [entity Hentity]. unfold assign_task. rewrite Htask, Hentity.
  case_bool_decide; [|done].
  unfold refresh. cbn. by rewrite lookup_alter_eq, Htask.
Qed.

(** C7. For a task and an entity present in storage, assigning twice gives
    the response and the database of assigning once: the entity is among
    the assignees afterwards, appended if it was not there and otherwise
    nothing changes. And an autopilot iteration on a task that already has
    the manager among its assignees adds no audit log entry for it. *)
Theorem assign_twice_is_assign_once db task_id entity_id task
    (Htask : tasks db !! task_id = Some task)
    (Hentity : is_Some (entities db !! entity_id)) :
  let once := assign_task task_id entity_id db in
  let twice := assign_task task_id entity_id once.2 in
  twice = once ∧
  (∃ task1,
     once.1 = Response (task_id, task1) ∧
     tasks once.2 !! task_id = Some task1 ∧
     entity_id ∈ task_assignees task1 ∧
     (list_to_set (task_assignees task1) : gset Z) =
       {[entity_id]} ∪ list_to_set (task_assignees task) ∧
     (entity_id ∈ task_assignees task → task1 = task ∧ once.2 = db) ∧
     (entity_id ∉ task_assignees task →
      task_assignees task1 = task_assignees task ++ [entity_id])) ∧
  (∀ cfg env,
     manager_id cfg = Some entity_id →
     (∀ lg, lg ∈ logs_added (trace (world_after cfg env once.2)) →
            log_task_id lg ≠ task_id) ∧
     filter (λ lg, log_task_id lg = task_id)
            (task_logs (committed (world_after cfg env once.2))) =
     filter (λ lg, log_task_id lg = task_id) (task_logs once.2)).
Proof.
  cbn zeta. rewrite (assign_task_present _ _ _ _ Htask Hentity).
  case_bool_decide as Hin.
  - assert (tasks (append_assignee task_id entity_id db) !! task_id
            = Some (with_assignee entity_id task)) as Hrow.
    { cbn. by rewrite lookup_alter_eq, Htask. }
    cbn [fst snd]. split_and!.
    + rewrite (assign_task_present _ _ _ (with_assignee entity_id task)); [|done..].
      rewrite bool_decide_false; [done|].
      intros Hnot. apply Hnot. cbn. apply elem_of_app. right. left.
    + exists (with_assignee entity_id task). split_and!; try done.
      * cbn. apply elem_of_app. right. left.
      * cbn. rewrite list_to_set_app_L. cbn. set_solver.
    + intros cfg env _.
      destruct (iteration_keeps_assigned cfg env (append_assignee task_id entity_id db)
                  task_id (with_assignee entity_id task)) as (_ & _ & Hlogs & Hfilter & _);
        [done| |done].
      cbn. by destruct (task_assignees task).
  - cbn [fst snd]. split_and!.
    + rewrite (assign_task_present _ _ _ task); [|done..].
      rewrite bool_decide_false; [done|]. by intros Hnot.
    + exists task. split_and!; try done. set_solver.
    + intros cfg env _.
      destruct (iteration_keeps_assigned cfg env db task_id task)
        as (_ & _ & Hlogs & Hfilter & _); [done| |done].
      intros Hnil. rewrite Hnil in Hin. by apply elem_of_nil in Hin.
Qed.

Lemma assign_twice_is_assign_once_witness :
  tasks db_one_task !! 10 = Some (mkTask "Write docs" PENDING 3 []) ∧
  is_Some (entities db_one_task !! 1) ∧
  assign_task 10 1 (assign_task 10 1 db_one_task).2 = assign_task 10 1 db_one_task.
Proof.
  assert (is_Some (entities db_one_task !! 1)) as Hentity.
  { exists (mkEntity "Ada"). reflexivity. }
  split_and!; [reflexivity|exact Hentity|].
  exact (proj1 (assign_twice_is_assign_once db_one_task 10 1
                  (mkTask "Write docs" PENDING 3 []) eq_refl Hentity)).
Defined.

(** Two iterations in a row on the two-task database, with [datetime]
    bound: the second adds nothing to the audit log. *)
Example autopilot_second_attempt_adds_no_log :
  let cfg := mkConfig true (Some 1) in
  let db1 := committed (world_after cfg env_bound db_two_tasks) in
  task_logs db1 =
    [mkTaskLog 10 "Autopilot: Manager Ada self-assigned task 'Write docs'" "action"] ∧
  task_logs (committed (world_after cfg env_bound db1)) = task_logs db1.
Proof. vm_compute. done. Qed.

(** C10. [assign_task] and [self_assign_task] give the same response,
    errors included, and leave the same database, for every task key,
    entity key and database. *)
Theorem self_assign_task_is_assign_task task_id entity_id db :
  self_assign_task task_id entity_id db = assign_task task_id entity_id db.
Proof.
  unfold self_assign_task, assign_task.
  destruct (tasks db !! task_id) as [task|]; [|reflexivity].
  destruct (entities db !! entity_id) as [entity|]; [|reflexivity].
  case_bool_decide; reflexivity.
Qed.

Example assign_task_errors :
  assign_task 99 1 db_one_task = (HTTPException 404 "Task not found", db_one_task) ∧
  self_assign_task 10 99 db_one_task
    = (HTTPException 404 "Entity not found", db_one_task).
Proof. vm_compute. done. Qed.

(** ** The broadcaster *)

Lemma deliveries_to peer_alive n (l : list manager.connection) :
  manager.d_to <$> ((λ ws, manager.mkDelivery ws n (peer_alive ws)) <$> l) = l.
Proof. induction l as [|ws l IH]; [done|]. cbn. by rewrite IH. Qed.

(** C9. [broadcast_to_project n P] sends [n], once, to every connection
    registered under project [P] when it is called and to no other
    connection: one registered only under another project or under the
    global scope gets nothing. The sends that the transport accepts are the
    deliveries. *)
Theorem broadcast_to_project_reaches_scope peer_alive n P reg :
  let ds := manager.broadcast_to_project peer_alive n P reg in
  (∀ ws, ws ∈ manager.d_to <$> ds ↔ ws ∈ manager.subscribers reg (Some P)) ∧
  NoDup (manager.d_to <$> ds) ∧
  Forall (λ d, manager.d_message d = n) ds ∧
  (∀ ws, ws ∈ manager.delivered_to ds ↔
         ws ∈ manager.subscribers reg (Some P) ∧ peer_alive ws = true) ∧
  (∀ ws scope, scope ≠ Some P → ws ∈ manager.subscribers reg scope →
               ws ∉ manager.subscribers reg (Some P) →
               ws ∉ manager.d_to <$> ds).
Proof.
  cbn zeta. unfold manager.broadcast_to_project.
  assert (∀ ws, ws ∈ manager.d_to <$>
                  ((λ ws, manager.mkDelivery ws n (peer_alive ws)) <$>
                     elements (manager.subscribers reg (Some P)))
                ↔ ws ∈ manager.subscribers reg (Some P)) as Hto.
  { intros ws. rewrite deliveries_to. apply elem_of_elements. }
  split_and!.
  - exact Hto.
  - rewrite deliveries_to. apply NoDup_elements.
  - apply Forall_forall. by intros d (ws & -> & _)%list_elem_of_fmap.
  - intros ws. unfold manager.delivered_to.
    rewrite list_elem_of_fmap. split.
    + intros (d & -> & Hd). apply list_elem_of_filter in Hd as [Hok Hd].
      apply list_elem_of_fmap in Hd as (ws' & -> & Hws'). cbn in *.
      split; [by apply elem_of_elements|done].
    + intros [Hsub Halive]. exists (manager.mkDelivery ws n (peer_alive ws)).
      split; [done|]. apply list_elem_of_filter. split; [done|].
      apply list_elem_of_fmap. exists ws. split; [done|]. by apply elem_of_elements.
  - intros ws scope _ _ Hnot Hin. by apply Hnot, Hto.
Qed.

(** ** The admission handlers *)

Section handler_facts.

Variable websocket : manager.connection.
Variable send_fault : nat → option py_exception.















End handler_facts.




Example websocket_global_trace :
  ws_trace (websocket_global_updates 5%nat (λ _, None) ["ping"; "{bad"]
              (PyExc ClsWebSocketDisconnect "1000") (ws_start manager.empty)).2 =
    [WsConnect 5%nat None;
     WsSend 5%nat [("type", PyStr "connection");
                   ("message", PyStr "Connected to global updates")];
     WsSend 5%nat [("type", PyStr "echo"); ("message", PyStr "ping")];
     WsSend 5%nat [("type", PyStr "echo"); ("message", PyStr "{bad")];
     WsDisconnect 5%nat None].
Proof. reflexivity. Qed.

(** * Further properties of the endpoints and of the control loop *)

(** ** [list.remove] *)

Lemma py_list_remove_absent x l : x ∉ l → py_list_remove x l = l.
Proof.
  induction l as [|y l IH]; intros Hx; [done|].
  apply not_elem_of_cons in Hx as [Hne Hx]. cbn.
  rewrite bool_decide_false by congruence. by rewrite IH.
Qed.

Lemma py_list_remove_appended x l : x ∉ l → py_list_remove x (l ++ [x]) = l.
Proof.
  induction l as [|y l IH]; intros Hx; cbn.
  - by rewrite bool_decide_true.
  - apply not_elem_of_cons in Hx as [Hne Hx].
    rewrite bool_decide_false by congruence. by rewrite IH.
Qed.

Lemma elem_of_py_list_remove x y l : y ∈ py_list_remove x l → y ∈ l.
Proof.
  induction l as [|z l IH]; cbn; [done|].
  case_bool_decide; intros Hin; [by right|].
  apply elem_of_cons in Hin as [->|Hin]; [left|right; auto].
Qed.

Lemma elem_of_py_list_remove_ne x y l : y ≠ x → y ∈ l → y ∈ py_list_remove x l.
Proof.
  intros Hne. induction l as [|z l IH]; cbn; [done|].
  intros [->|Hin]%elem_of_cons.
  - rewrite bool_decide_false by done. left.
  - case_bool_decide; [done|]. right. auto.
Qed.

Lemma NoDup_py_list_remove x l :
  NoDup l → NoDup (py_list_remove x l) ∧ x ∉ py_list_remove x l.
Proof.
  induction 1 as [|y l Hy Hnd IH]; cbn; [split; [constructor|apply not_elem_of_nil]|].
  case_bool_decide as Heq.
  - subst y. by split.
  - destruct IH as [IH1 IH2]. split.
    + constructor; [|done]. intros Hin. by apply Hy, (elem_of_py_list_remove x).
    + apply not_elem_of_cons. split; [congruence|done].
Qed.

(** ** Assigning and unassigning through the endpoints *)

Lemma unassign_task_present db task_id entity_id task :
  tasks db !! task_id = Some task →
  is_Some (entities db !! entity_id) →
  unassign_task task_id entity_id db =
    if bool_decide (entity_id ∈ task_assignees task)
    then (Response (task_id, without_assignee entity_id task),
          remove_assignee task_id entity_id db)
    else (Response (task_id, task), db).
Proof.
  intros Htask [entity Hentity]. unfold unassign_task. rewrite Htask, Hentity.
  case_bool_decide; [|done].
  unfold refresh. cbn. by rewrite lookup_alter_eq, Htask.
Qed.

Lemma remove_append_assignee db tid eid t :
  tasks db !! tid = Some t → eid ∉ task_assignees t →
  remove_assignee tid eid (append_assignee tid eid db) = db.
Proof.
  intros Ht Hnot. destruct db as [es ts lgs]. unfold remove_assignee, append_assignee.
  cbn in *. unfold set_tasks. cbn. f_equal.
  apply map_eq. intros k. destruct (decide (k = tid)) as [->|Hne].
  - rewrite !lookup_alter_eq, Ht. cbn. unfold without_assignee, with_assignee. cbn.
    rewrite py_list_remove_appended by done. by destruct t.
  - by rewrite !lookup_alter_ne.
Qed.

(** X1. Assigning an entity that the task does not have and unassigning it
    again gives back the database as it was, and the response shows the
    task as it was. *)
Theorem assign_then_unassign_restores db task_id entity_id task
    (Htask : tasks db !! task_id = Some task)
    (Hentity : is_Some (entities db !! entity_id))
    (Hnew : entity_id ∉ task_assignees task) :
  unassign_task task_id entity_id (assign_task task_id entity_id db).2 =
    (Response (task_id, task), db).
Proof.
  rewrite (assign_task_present _ _ _ _ Htask Hentity).
  rewrite bool_decide_true by done. cbn [snd].
  assert (tasks (append_assignee task_id entity_id db) !! task_id
          = Some (with_assignee entity_id task)) as Hrow.
  { cbn. by rewrite lookup_alter_eq, Htask. }
  rewrite (unassign_task_present _ _ _ _ Hrow Hentity).
  rewrite bool_decide_true by (cbn; apply elem_of_app; right; left).
  rewrite (remove_append_assignee _ _ _ _ Htask Hnew). f_equal. f_equal.
  unfold without_assignee, with_assignee. cbn.
  rewrite py_list_remove_appended by done. by destruct task.
Qed.

Lemma assign_then_unassign_restores_witness :
  tasks db_two_tasks !! 11 = Some (mkTask "Fix bug" PENDING 3 [2]) ∧
  is_Some (entities db_two_tasks !! 1) ∧
  (1 ∉ [2]) ∧
  unassign_task 11 1 (assign_task 11 1 db_two_tasks).2 =
    (Response (11, mkTask "Fix bug" PENDING 3 [2]), db_two_tasks).
Proof.
  assert (is_Some (entities db_two_tasks !! 1)) as Hentity.
  { exists (mkEntity "Ada"). reflexivity. }
  assert (1 ∉ [2]) as Hnew.
  { intros Hin. apply elem_of_cons in Hin as [Heq|Hin]; [discriminate|].
    by apply elem_of_nil in Hin. }
  split_and!; [reflexivity|exact Hentity|exact Hnew|].
  exact (assign_then_unassign_restores db_two_tasks 11 1
           (mkTask "Fix bug" PENDING 3 [2]) eq_refl Hentity Hnew).
Defined.

(** X2. On a task whose assignee list has no duplicate, unassigning an
    assigned entity removes it and keeps every other assignee; a second
    unassignment of the same entity changes nothing. *)
Theorem unassign_removes_and_is_idempotent db task_id entity_id task
    (Htask : tasks db !! task_id = Some task)
    (Hentity : is_Some (entities db !! entity_id))
    (Hnodup : NoDup (task_assignees task)) :
  let once := unassign_task task_id entity_id db in
  (∃ task1,
     once.1 = Response (task_id, task1) ∧
     tasks once.2 !! task_id = Some task1 ∧
     (entity_id ∉ task_assignees task1) ∧
     (∀ eid, eid ≠ entity_id →
             (eid ∈ task_assignees task1 ↔ eid ∈ task_assignees task))) ∧
  unassign_task task_id entity_id once.2 = once.
Proof.
  cbn zeta. rewrite (unassign_task_present _ _ _ _ Htask Hentity).
  destruct (NoDup_py_list_remove entity_id _ Hnodup) as [Hnd' Hgone].
  case_bool_decide as Hin; cbn [fst snd].
  - assert (tasks (remove_assignee task_id entity_id db) !! task_id
            = Some (without_assignee entity_id task)) as Hrow.
    { cbn. by rewrite lookup_alter_eq, Htask. }
    split.
    + exists (without_assignee entity_id task). split_and!; try done.
      intros eid Hne. cbn. split; [apply elem_of_py_list_remove|].
      by apply elem_of_py_list_remove_ne.
    + rewrite (unassign_task_present _ _ _ _ Hrow Hentity).
      by rewrite bool_decide_false.
  - split.
    + exists task. by split_and!.
    + rewrite (unassign_task_present _ _ _ _ Htask Hentity).
      by rewrite bool_decide_false.
Qed.

Lemma unassign_removes_and_is_idempotent_witness :
  tasks db_two_tasks !! 11 = Some (mkTask "Fix bug" PENDING 3 [2]) ∧
  is_Some (entities db_two_tasks !! 2) ∧
  NoDup [2] ∧
  unassign_task 11 2 (unassign_task 11 2 db_two_tasks).2 = unassign_task 11 2 db_two_tasks.
Proof.
  assert (is_Some (entities db_two_tasks !! 2)) as Hentity.
  { exists (mkEntity "Bob"). reflexivity. }
  assert (NoDup [2]) as Hnd by (apply NoDup_singleton).
  split_and!; [reflexivity|exact Hentity|exact Hnd|].
  exact (proj2 (unassign_removes_and_is_idempotent db_two_tasks 11 2
                  (mkTask "Fix bug" PENDING 3 [2]) eq_refl Hentity Hnd)).
Defined.

(** X3. Unassigning an assigned entity and assigning it again succeeds
    and ends with the assignees the task had, each of them once. *)
Theorem unassign_then_assign_keeps_assignees db task_id entity_id task
    (Htask : tasks db !! task_id = Some task)
    (Hentity : is_Some (entities db !! entity_id))
    (Hnodup : NoDup (task_assignees task))
    (Hin : entity_id ∈ task_assignees task) :
  ∃ task1,
    assign_task task_id entity_id (unassign_task task_id entity_id db).2 =
      (Response (task_id, task1),
       append_assignee task_id entity_id (remove_assignee task_id entity_id db)) ∧
    tasks (append_assignee task_id entity_id (remove_assignee task_id entity_id db))
      !! task_id = Some task1 ∧
    (∀ eid, eid ∈ task_assignees task1 ↔ eid ∈ task_assignees task) ∧
    NoDup (task_assignees task1).
Proof.
  destruct (NoDup_py_list_remove entity_id _ Hnodup) as [Hnd' Hgone].
  rewrite (unassign_task_present _ _ _ _ Htask Hentity).
  rewrite bool_decide_true by done. cbn [snd].
  assert (tasks (remove_assignee task_id entity_id db) !! task_id
          = Some (without_assignee entity_id task)) as Hrow.
  { cbn. by rewrite lookup_alter_eq, Htask. }
  rewrite (assign_task_present _ _ _ _ Hrow Hentity).
  rewrite bool_decide_true by done.
  exists (with_assignee entity_id (without_assignee entity_id task)).
  split_and!; [done| | |].
  - change (alter (with_assignee entity_id) task_id
              (tasks (remove_assignee task_id entity_id db)) !! task_id
            = Some (with_assignee entity_id (without_assignee entity_id task))).
    by rewrite lookup_alter_eq, Hrow.
  - intros eid. cbn. rewrite elem_of_app, list_elem_of_singleton.
    destruct (decide (eid = entity_id)) as [->|Hne]; [tauto|].
    split.
    + intros [Hr|?]; [by apply elem_of_py_list_remove in Hr|done].
    + intros Hr. left. by apply elem_of_py_list_remove_ne.
  - cbn. apply NoDup_app. split_and!; [done| |apply NoDup_singleton].
    intros eid Hr ->%list_elem_of_singleton. done.
Qed.

Lemma unassign_then_assign_keeps_assignees_witness :
  let db := mkStore {[ 1 := mkEntity "Ada"; 2 := mkEntity "Bob" ]}
                    {[ 10 := mkTask "Write docs" PENDING 3 [1; 2] ]} [] in
  tasks db !! 10 = Some (mkTask "Write docs" PENDING 3 [1; 2]) ∧
  is_Some (entities db !! 1) ∧ NoDup [1; 2] ∧ 1 ∈ [1; 2] ∧
  ∃ task1,
    assign_task 10 1 (unassign_task 10 1 db).2 =
      (Response (10, task1), append_assignee 10 1 (remove_assignee 10 1 db)) ∧
    (∀ eid, eid ∈ task_assignees task1 ↔ eid ∈ [1; 2]).
Proof.
  cbn zeta.
  set (db := mkStore {[ 1 := mkEntity "Ada"; 2 := mkEntity "Bob" ]}
                     {[ 10 := mkTask "Write docs" PENDING 3 [1; 2] ]} []).
  assert (is_Some (entities db !! 1)) as Hentity.
  { exists (mkEntity "Ada"). reflexivity. }
  assert (NoDup [1; 2]) as Hnd.
  { apply NoDup_cons. split; [|apply NoDup_singleton].
    intros Hin%list_elem_of_singleton. discriminate. }
  assert (1 ∈ [1; 2]) as Hin by left.
  split_and!; [reflexivity|exact Hentity|exact Hnd|exact Hin|].
  destruct (unassign_then_assign_keeps_assignees db 10 1
              (mkTask "Write docs" PENDING 3 [1; 2]) eq_refl Hentity Hnd Hin)
    as (task1 & Heq & _ & Hsame & _).
  exists task1. split; [exact Heq|exact Hsame].
Defined.

Lemma only_assignees_of_refl task_id db : only_assignees_of task_id db db.
Proof.
  unfold only_assignees_of. split_and!; try done.
  by destruct (tasks db !! task_id).
Qed.

Lemma only_assignees_of_alter f task_id db :
  (∀ t, task_title (f t) = task_title t ∧ task_status (f t) = task_status t ∧
        task_project_id (f t) = task_project_id t) →
  only_assignees_of task_id db (set_tasks (alter f task_id (tasks db)) db).
Proof.
  intros Hf. unfold only_assignees_of. cbn. split_and!; try done.
  - intros tid Hne. by rewrite lookup_alter_ne.
  - rewrite lookup_alter_eq. destruct (tasks db !! task_id) as [t|]; cbn; [apply Hf|done].
Qed.

Lemma append_assignee_frame task_id eid db :
  only_assignees_of task_id db (append_assignee task_id eid db).
Proof. by apply only_assignees_of_alter. Qed.

Lemma remove_assignee_frame task_id eid db :
  only_assignees_of task_id db (remove_assignee task_id eid db).
Proof. by apply only_assignees_of_alter. Qed.

(** X4. Whatever the request, [assign_task], [unassign_task] and
    [ui_assign_task] change nothing but the assignee list of the task
    named: the entities, the audit log, every other task and the title,
    status and project of that task stay, and no task appears or
    disappears. *)
Theorem assignment_endpoints_touch_one_list task_id entity_id action db :
  only_assignees_of task_id db (assign_task task_id entity_id db).2 ∧
  only_assignees_of task_id db (unassign_task task_id entity_id db).2 ∧
  only_assignees_of task_id db (ui_assign_task task_id entity_id action db).2.
Proof.
  unfold assign_task, unassign_task, ui_assign_task.
  destruct (tasks db !! task_id) as [task|] eqn:Htask;
    [|split_and!; apply only_assignees_of_refl].
  destruct (entities db !! entity_id) as [entity|];
    [|split_and!; apply only_assignees_of_refl].
  split_and!.
  - case_bool_decide; [apply append_assignee_frame|apply only_assignees_of_refl].
  - case_bool_decide; [apply remove_assignee_frame|apply only_assignees_of_refl].
  - destruct (_ && _); [apply append_assignee_frame|].
    destruct (_ && _); [apply remove_assignee_frame|apply only_assignees_of_refl].
Qed.

(** ** The consistency of the assignee lists *)

Lemma append_assignee_consistent task_id eid db :
  assignees_consistent db →
  is_Some (entities db !! eid) →
  (∀ t, tasks db !! task_id = Some t → eid ∉ task_assignees t) →
  assignees_consistent (append_assignee task_id eid db).
Proof.
  intros Hwf Heid Hnew tid t. cbn.
  destruct (decide (tid = task_id)) as [->|Hne].
  - rewrite lookup_alter_eq. destruct (tasks db !! task_id) as [t0|] eqn:Ht0; [|done].
    cbn. intros [= <-]. destruct (Hwf _ _ Ht0) as [Hnd Href]. cbn. split.
    + apply NoDup_app. split_and!; [done| |apply NoDup_singleton].
      intros e He ->%list_elem_of_singleton. by apply (Hnew t0).
    + intros e [He| ->%list_elem_of_singleton]%elem_of_app; auto.
  - rewrite lookup_alter_ne by done. apply Hwf.
Qed.

Lemma remove_assignee_consistent task_id eid db :
  assignees_consistent db → assignees_consistent (remove_assignee task_id eid db).
Proof.
  intros Hwf tid t. cbn.
  destruct (decide (tid = task_id)) as [->|Hne].
  - rewrite lookup_alter_eq. destruct (tasks db !! task_id) as [t0|] eqn:Ht0; [|done].
    cbn. intros [= <-]. destruct (Hwf _ _ Ht0) as [Hnd Href]. cbn. split.
    + by apply NoDup_py_list_remove.
    + intros e He. apply Href. by apply elem_of_py_list_remove in He.
  - rewrite lookup_alter_ne by done. apply Hwf.
Qed.

(** X5. The assignment endpoints keep the assignee lists consistent: when
    no task lists an entity twice and every assignee exists, the same
    holds after [assign_task], [self_assign_task], [unassign_task] and
    [ui_assign_task], whatever the request. *)
Theorem assignment_endpoints_keep_consistency task_id entity_id action db
    (Hwf : assignees_consistent db) :
  assignees_consistent (assign_task task_id entity_id db).2 ∧
  assignees_consistent (self_assign_task task_id entity_id db).2 ∧
  assignees_consistent (unassign_task task_id entity_id db).2 ∧
  assignees_consistent (ui_assign_task task_id entity_id action db).2.
Proof.
  unfold assign_task, self_assign_task, unassign_task, ui_assign_task.
  destruct (tasks db !! task_id) as [task|] eqn:Htask; [|by split_and!].
  destruct (entities db !! entity_id) as [entity|] eqn:Hentity; [|by split_and!].
  assert (entity_id ∉ task_assignees task →
          assignees_consistent (append_assignee task_id entity_id db)) as Happend.
  { intros Hnew. apply append_assignee_consistent; [done|by eexists|].
    intros t Ht. congruence. }
  split_and!.
  - case_bool_decide; [by apply Happend|done].
  - case_bool_decide; [by apply Happend|done].
  - case_bool_decide; [by apply remove_assignee_consistent|done].
  - destruct (String.eqb _ _); cbn [andb].
    + case_bool_decide; [by apply Happend|].
      destruct (String.eqb _ _); cbn [andb]; [|done].
      case_bool_decide; [by apply remove_assignee_consistent|done].
    + destruct (String.eqb _ _); cbn [andb]; [|done].
      case_bool_decide; [by apply remove_assignee_consistent|done].
Qed.

Lemma db_two_tasks_consistent : assignees_consistent db_two_tasks.
Proof.
  intros tid t Ht.
  assert (t = mkTask "Write docs" PENDING 3 [] ∨ t = mkTask "Fix bug" PENDING 3 [2])
    as [-> | ->].
  { apply elem_of_map_to_list in Ht.
    assert (map_to_list (tasks db_two_tasks) =
            [(11, mkTask "Fix bug" PENDING 3 [2]);
             (10, mkTask "Write docs" PENDING 3 [])]) as Hlist by (by vm_compute).
    rewrite Hlist, !elem_of_cons, elem_of_nil in Ht.
    destruct Ht as [[= _ ->]|[[= _ ->]|[]]]; [by right|by left]. }
  - split; [constructor|]. by intros eid Hin%elem_of_nil.
  - split; [apply NoDup_singleton|].
    intros eid ->%list_elem_of_singleton. exists (mkEntity "Bob"). reflexivity.
Qed.

Lemma assignment_endpoints_keep_consistency_witness :
  assignees_consistent db_two_tasks ∧
  assignees_consistent (assign_task 11 1 db_two_tasks).2.
Proof.
  split; [exact db_two_tasks_consistent|].
  exact (proj1 (assignment_endpoints_keep_consistency 11 1 None db_two_tasks
                  db_two_tasks_consistent)).
Defined.

(** ** The UI endpoint and the API endpoints *)

(** Evaluates the comparisons of a known action with the two keywords. *)
Ltac eval_action :=
  repeat match goal with
  | |- context [String.eqb ?a ?b] =>
      let v := eval vm_compute in (String.eqb a b) in
      change (String.eqb a b) with v
  end;
  cbn [andb].

(** X6. [ui_assign_task] fails exactly as [assign_task] does, with the
    same 404, and writes what the API endpoints write: with the action
    ["assign"], or without action, the database of [assign_task]; with
    ["unassign"] that of [unassign_task]; with any other action
    nothing. *)
Theorem ui_assign_task_agrees_with_api task_id entity_id action db :
  (∀ code detail,
     (ui_assign_task task_id entity_id action db).1 = HTTPException code detail ↔
     (assign_task task_id entity_id db).1 = HTTPException code detail) ∧
  (action = None ∨ action = Some "assign" →
   (ui_assign_task task_id entity_id action db).2 = (assign_task task_id entity_id db).2) ∧
  (action = Some "unassign" →
   (ui_assign_task task_id entity_id action db).2 =
   (unassign_task task_id entity_id db).2) ∧
  (∀ a, action = Some a → a ≠ "assign" → a ≠ "unassign" →
        (ui_assign_task task_id entity_id action db).2 = db).
Proof.
  unfold ui_assign_task, assign_task, unassign_task.
  assert (∀ detail0 : string,
            (∀ code detail,
               (@HTTPException unit 404 detail0, db).1 = HTTPException code detail ↔
               (@HTTPException (Z * Task) 404 detail0, db).1 = HTTPException code detail))
    as Hsame.
  { intros detail0 code detail. cbn. split; intros [= <- <-]; reflexivity. }
  destruct (tasks db !! task_id) as [task|]; [|by split].
  destruct (entities db !! entity_id) as [entity|]; [|by split].
  split_and!.
  - intros code detail.
    destruct (_ && _); [by case_bool_decide|].
    destruct (_ && _); by case_bool_decide.
  - intros [-> | ->]; eval_action; by case_bool_decide.
  - intros ->. eval_action. by case_bool_decide.
  - intros a -> Ha Hu. change (default "assign" (Some a)) with a.
    apply String.eqb_neq in Ha, Hu. by rewrite Ha, Hu.
Qed.

(** X7. The check of [reproduce_assign.py]: after a [POST
    /ui/tasks/{id}/assign] with the action ["assign"] (or none) for a task
    and an entity that exist, [GET /tasks/{id}] shows the entity among the
    assignees of the task. *)
Theorem ui_assign_then_get_task_shows_entity task_id entity_id action db task
    (Htask : tasks db !! task_id = Some task)
    (Hentity : is_Some (entities db !! entity_id))
    (Haction : action = None ∨ action = Some "assign") :
  (ui_assign_task task_id entity_id action db).1 = Response () ∧
  ∃ task1,
    get_task task_id (ui_assign_task task_id entity_id action db).2
      = Response (task_id, task1) ∧
    entity_id ∈ task_assignees task1.
Proof.
  destruct Hentity as [entity Hentity].
  unfold ui_assign_task, get_task. rewrite Htask, Hentity.
  assert (String.eqb (default "assign" action) "assign" = true) as ->
    by (by destruct Haction as [-> | ->]).
  cbn [andb]. case_bool_decide as Hnew; cbn [fst snd].
  - split; [done|]. exists (with_assignee entity_id task). cbn.
    rewrite lookup_alter_eq, Htask. split; [done|].
    apply elem_of_app. right. left.
  - destruct (decide (entity_id ∈ task_assignees task)) as [Hin|Hout];
      [|exfalso; first [by apply Hnew|by apply Hout]].
    destruct (String.eqb (default "assign" action) "unassign" &&
              bool_decide (entity_id ∈ task_assignees task)) eqn:Hu.
    + exfalso. apply andb_true_iff in Hu as [Hu _].
      by destruct Haction as [-> | ->].
    + cbn [fst snd]. split; [done|]. exists task. by rewrite Htask.
Qed.

Lemma ui_assign_then_get_task_shows_entity_witness :
  tasks db_two_tasks !! 11 = Some (mkTask "Fix bug" PENDING 3 [2]) ∧
  is_Some (entities db_two_tasks !! 1) ∧
  ∃ task1,
    get_task 11 (ui_assign_task 11 1 (Some "assign") db_two_tasks).2
      = Response (11, task1) ∧
    1 ∈ task_assignees task1.
Proof.
  assert (is_Some (entities db_two_tasks !! 1)) as Hentity.
  { exists (mkEntity "Ada"). reflexivity. }
  split_and!; [reflexivity|exact Hentity|].
  exact (proj2 (ui_assign_then_get_task_shows_entity 11 1 (Some "assign") db_two_tasks
                  (mkTask "Fix bug" PENDING 3 [2]) eq_refl Hentity
                  (or_intror eq_refl))).
Defined.

(** ** Comments *)

(** X8. A comment on a task that exists is stored with author 1 (the
    constant of line 244): the comments of that task are then
    those of before and the new one, and the comments of every other task
    are as they were. For a task that does not exist the answer is 404 and
    nothing is stored. *)
Theorem create_comment_then_list comment db comments :
  match tasks db !! cc_task_id comment with
  | Some _ =>
      let stored := mkComment (cc_content comment) (cc_task_id comment) 1 in
      (create_comment comment db comments).1 = Response stored ∧
      get_task_comments (cc_task_id comment) (create_comment comment db comments).2 ≡ₚ
        stored :: get_task_comments (cc_task_id comment) comments ∧
      ∀ tid, tid ≠ cc_task_id comment →
        get_task_comments tid (create_comment comment db comments).2 =
        get_task_comments tid comments
  | None =>
      create_comment comment db comments =
        (HTTPException 404 "Task not found", comments)
  end.
Proof.
  unfold create_comment. destruct (tasks db !! cc_task_id comment); [|done].
  cbn [fst snd]. unfold get_task_comments. split_and!; [done| |].
  - rewrite filter_app, filter_cons, decide_True by done.
    rewrite filter_nil. symmetry. apply Permutation_cons_append.
  - intros tid Hne. rewrite filter_app, filter_cons, decide_False by (cbn; congruence).
    by rewrite filter_nil, app_nil_r.
Qed.

(** ** What the control loop keeps *)

Lemma assignable_all env ts l :
  assignable env ts = (l, None) → l = filter (λ x, task_assignees x.2 = []) ts.
Proof.
  revert l. induction ts as [|task rest IH]; intros l; cbn [assignable].
  - by intros [= <-].
  - rewrite filter_cons. case_bool_decide as Hempty.
    + rewrite decide_True by done.
      destruct (env_fault env (AtAssign task.1)); [done|].
      destruct (assignable env rest) as [l' o]. cbn. intros [= <- ->].
      f_equal. by apply IH.
    + rewrite decide_False by done. apply IH.
Qed.

(** The database that the body of an iteration leaves: the one it found, or
    the one in which every pending task without assignee has got the
    manager and its audit log entry. *)
Lemma body_path_all_or_nothing cfg env c r c' evs :
  body_path cfg env c r c' evs →
  (c' = c ∧ EvCommit ∉ evs) ∨
  (∃ me, lookup_manager cfg c = Some me ∧
         unassigned_pending c ≠ [] ∧
         c' = foldl (assign_one me) c (unassigned_pending c) ∧
         EvCommit ∈ evs).
Proof.
  assert (∀ me l, EvCommit ∉ l ≫= assign_events me) as Hnocommit.
  { intros me l (task & Hev & _)%list_elem_of_bind. unfold assign_events in Hev.
    rewrite !elem_of_cons, elem_of_nil in Hev. by destruct Hev as [?|[?|[]]]. }
  destruct 1.
  1-7: left; split; [done|];
       rewrite ?elem_of_app, ?elem_of_cons, ?elem_of_nil;
       intros Hin;
       repeat match goal with
       | H : _ ∨ _ |- _ => destruct H
       | H : False |- _ => destruct H
       | H : EvCommit = _ |- _ => discriminate H
       | H : EvCommit ∈ _ ≫= assign_events _ |- _ => by apply Hnocommit in H
       end.
  all: right; exists me;
    match goal with
    | H : assignable _ _ = (_, None) |- _ => apply assignable_all in H; subst l
    end;
    (split_and!; [done|done|done|]);
    rewrite !elem_of_app; right; right; left; left.
Qed.

Lemma iteration_all_or_nothing cfg env w :
  committed (iteration cfg env w).2 = committed w ∨
  ∃ me, lookup_manager cfg (committed w) = Some me ∧
        unassigned_pending (committed w) ≠ [] ∧
        committed (iteration cfg env w).2 =
          foldl (assign_one me) (committed w) (unassigned_pending (committed w)).
Proof.
  destruct (iteration_path cfg env w) as (r & c' & s' & evs & Hp & ->). cbn.
  destruct (body_path_all_or_nothing _ _ _ _ _ _ Hp) as [[-> _]|(me & ? & ? & -> & _)];
    [by left|right; by exists me].
Qed.

Lemma unassigned_pending_rows c x :
  x ∈ unassigned_pending c →
  tasks c !! x.1 = Some x.2 ∧ task_status x.2 = PENDING ∧ task_assignees x.2 = [].
Proof.
  intros [Hempty Hsel]%list_elem_of_filter. destruct x as [k t].
  apply elem_of_select_pending in Hsel as [? ?]. by split_and!.
Qed.

Lemma NoDup_unassigned_pending c : NoDup (unassigned_pending c).*1.
Proof.
  eapply sublist_NoDup; [apply NoDup_select_pending|].
  apply fmap_sublist, sublist_filter.
Qed.

Lemma only_appends_refl db : only_appends db db.
Proof.
  split_and!; [done|done|]. intros tid. by destruct (tasks db !! tid).
Qed.

Lemma only_appends_trans db1 db2 db3 :
  only_appends db1 db2 → only_appends db2 db3 → only_appends db1 db3.
Proof.
  intros (He1 & Hl1 & Ht1) (He2 & Hl2 & Ht2). split_and!.
  - congruence.
  - by etrans.
  - intros tid. specialize (Ht1 tid). specialize (Ht2 tid).
    destruct (tasks db1 !! tid), (tasks db2 !! tid), (tasks db3 !! tid); try done.
    destruct Ht1 as (? & ? & ? & ?), Ht2 as (? & ? & ? & ?).
    split_and!; [congruence..|by etrans].
Qed.

Lemma only_appends_assign_one me c x : only_appends c (assign_one me c x).
Proof.
  split_and!; [done|by apply prefix_app_r|]. intros tid. cbn.
  destruct (decide (tid = x.1)) as [->|Hne].
  - rewrite lookup_alter_eq. destruct (tasks c !! x.1) as [t|]; cbn; [|done].
    split_and!; [done..|]. by apply prefix_app_r.
  - rewrite lookup_alter_ne by done. by destruct (tasks c !! tid).
Qed.

Lemma only_appends_foldl me l c : only_appends c (foldl (assign_one me) c l).
Proof.
  revert c. induction l as [|x l IH]; intros c; [apply only_appends_refl|].
  cbn. eapply only_appends_trans; [apply only_appends_assign_one|apply IH].
Qed.

(** A relation between databases that every iteration respects is
    respected by every run of the loop. *)
Lemma run_autopilot_loop_respects (R : Store → Store → Prop) :
  (∀ c, R c c) → (∀ c1 c2 c3, R c1 c2 → R c2 c3 → R c1 c3) →
  (∀ cfg env w, R (committed w) (committed (iteration cfg env w).2)) →
  ∀ script w, R (committed w) (committed (run_autopilot_loop script w).2).
Proof.
  intros Hrefl Htrans Hstep script.
  induction script as [|t script IH]; intros w; [apply Hrefl|].
  cbn [run_autopilot_loop]. rewrite bind_run.
  pose proof (Hstep (tick_config t) (tick_env t) w) as Hone.
  destruct (iteration (tick_config t) (tick_env t) w) as [[[]|e] w1]; cbn in *; [|done].
  eapply Htrans; [exact Hone|apply IH].
Qed.

(** X9. The loop only ever adds: after any number of turns, with any
    configurations and failures, the database has the same entities and the
    same tasks with their title, status and project; the audit log and
    each assignee list have at most grown at their end. *)
Theorem autopilot_loop_only_appends script w :
  only_appends (committed w) (committed (run_autopilot_loop script w).2).
Proof.
  apply run_autopilot_loop_respects.
  - apply only_appends_refl.
  - apply only_appends_trans.
  - intros cfg env w0.
    destruct (iteration_all_or_nothing cfg env w0) as [->|(me & _ & _ & ->)];
      [apply only_appends_refl|apply only_appends_foldl].
Qed.

Lemma add_log_consistent lg db :
  assignees_consistent db → assignees_consistent (add_log lg db).
Proof. intros Hwf tid t Ht. exact (Hwf tid t Ht). Qed.

Lemma foldl_assign_one_consistent me l c :
  assignees_consistent c →
  is_Some (entities c !! me.1) →
  NoDup l.*1 →
  (∀ x, x ∈ l → tasks c !! x.1 = Some x.2 ∧ task_assignees x.2 = []) →
  assignees_consistent (foldl (assign_one me) c l).
Proof.
  revert c. induction l as [|x l IH]; intros c Hwf Hme Hnd Hrows; [done|].
  cbn in Hnd. apply NoDup_cons in Hnd as [Hx Hnd]. cbn [foldl].
  destruct (Hrows x) as [Hrow Hempty]; [left|].
  apply IH; [| |done|].
  - apply add_log_consistent, append_assignee_consistent; [done..|].
    intros t Ht. assert (t = x.2) as -> by congruence.
    rewrite Hempty. apply not_elem_of_nil.
  - done.
  - intros y Hy. destruct (Hrows y) as [Hyrow Hyempty]; [by right|].
    split; [|done]. cbn. rewrite lookup_alter_ne; [done|].
    intros Heq. apply Hx. rewrite Heq. apply list_elem_of_fmap. by exists y.
Qed.

(** X10. The loop keeps the assignee lists consistent: when no task lists
    an entity twice and every assignee exists, this still holds after any
    number of turns, with any configurations and failures. *)
Theorem autopilot_loop_keeps_consistency script w
    (Hwf : assignees_consistent (committed w)) :
  assignees_consistent (committed (run_autopilot_loop script w).2).
Proof.
  revert Hwf.
  apply (run_autopilot_loop_respects
           (λ c c', assignees_consistent c → assignees_consistent c')); [auto..|].
  intros cfg env w0 Hwf.
  destruct (iteration_all_or_nothing cfg env w0) as [->|(me & Hme & _ & ->)]; [done|].
  apply foldl_assign_one_consistent; [done| |apply NoDup_unassigned_pending|].
  - apply lookup_manager_Some in Hme as [_ Hme]. by eexists.
  - intros x Hx. apply unassigned_pending_rows in Hx as (? & _ & ?). by split.
Qed.

Lemma autopilot_loop_keeps_consistency_witness :
  assignees_consistent (committed (start db_two_tasks)) ∧
  assignees_consistent
    (committed (run_autopilot_loop script_storage_failure (start db_two_tasks)).2).
Proof.
  split; [exact db_two_tasks_consistent|].
  exact (autopilot_loop_keeps_consistency script_storage_failure (start db_two_tasks)
           db_two_tasks_consistent).
Defined.

(** ** Which tasks an iteration leaves alone *)

(** X11. A task that is not pending is never touched by an iteration, even
    when it has no assignee: its row stays, nothing is appended to it, and
    no audit log entry and no notification is made for it. *)
Theorem autopilot_leaves_other_statuses cfg env db tid t
    (Htask : tasks db !! tid = Some t)
    (Hstatus : task_status t ≠ PENDING) :
  tasks (committed (world_after cfg env db)) !! tid = Some t ∧
  (∀ eid, EvAppendAssignee tid eid ∉ trace (world_after cfg env db)) ∧
  (∀ lg, lg ∈ logs_added (trace (world_after cfg env db)) → log_task_id lg ≠ tid) ∧
  (∀ n p, (n, p) ∈ broadcasts (trace (world_after cfg env db)) →
          notified_task n ≠ Some tid).
Proof.
  destruct (iteration_start_cases cfg env db) as (r & c' & evs & Hp & _ & -> & ->).
  assert (∀ task, task ∈ select_pending db → task.1 ≠ tid) as Hother.
  { intros [k t'] Hsel ?. cbn in *. subst k.
    apply elem_of_select_pending in Hsel as [Hrow Hpending]. congruence. }
  split_and!.
  - destruct (body_path_all_or_nothing _ _ _ _ _ _ Hp) as [[-> _]|(me & _ & _ & -> & _)];
      [done|].
    rewrite foldl_assign_one_other; [done|].
    intros (x & -> & Hx)%list_elem_of_fmap.
    apply list_elem_of_filter in Hx as [_ Hx]. by apply (Hother x).
  - intros eid Hev. apply (body_path_provenance _ _ _ _ _ _ _ Hp) in Hev.
    destruct Hev as (me & t' & _ & _ & Hsel & _). by apply (Hother (tid, t')).
  - intros lg (ev & Hev & Hsome)%list_elem_of_omap.
    destruct ev; try discriminate. injection Hsome as ->.
    apply (body_path_provenance _ _ _ _ _ _ _ Hp) in Hev.
    destruct Hev as (me & task & _ & Hsel & _ & ->). cbn. by apply Hother.
  - intros n p (ev & Hev & Hsome)%list_elem_of_omap.
    destruct ev; try discriminate. injection Hsome as -> ->.
    apply (body_path_provenance _ _ _ _ _ _ _ Hp) in Hev.
    destruct Hev as (me & task & clock & j & _ & _ & Hsel & _ & -> & _).
    cbn. intros [= Heq]. by apply (Hother task).
Qed.

Lemma autopilot_leaves_other_statuses_witness :
  let db := mkStore {[ 1 := mkEntity "Ada" ]}
                    {[ 12 := mkTask "Ship" COMPLETED 4 [] ]} [] in
  tasks db !! 12 = Some (mkTask "Ship" COMPLETED 4 []) ∧
  COMPLETED ≠ PENDING ∧
  tasks (committed (world_after (mkConfig true (Some 1)) env_bound db)) !! 12
    = Some (mkTask "Ship" COMPLETED 4 []).
Proof.
  cbn zeta. split_and!; [reflexivity|discriminate|].
  apply (autopilot_leaves_other_statuses (mkConfig true (Some 1)) env_bound
           (mkStore {[ 1 := mkEntity "Ada" ]}
                    {[ 12 := mkTask "Ship" COMPLETED 4 [] ]} [])
           12 (mkTask "Ship" COMPLETED 4 []));
    [reflexivity|discriminate].
Defined.

(** ** One commit for all the assignments of an iteration *)

Lemma after_handler_commit r evs :
  EvCommit ∈ (after_handler r evs).2 ↔ EvCommit ∈ evs.
Proof.
  split; [|apply after_handler_keeps].
  intros [?|(e & _ & [?|?])]%after_handler_events; done.
Qed.

Lemma elem_of_unassigned_pending c k t :
  (k, t) ∈ unassigned_pending c ↔
  tasks c !! k = Some t ∧ task_status t = PENDING ∧ task_assignees t = [].
Proof.
  unfold unassigned_pending. rewrite list_elem_of_filter, elem_of_select_pending.
  cbn. tauto.
Qed.

Lemma foldl_assign_one_unassigned me c k t :
  (k, t) ∈ unassigned_pending c →
  tasks (foldl (assign_one me) c (unassigned_pending c)) !! k =
    Some (mkTask (task_title t) PENDING (task_project_id t) [me.1]).
Proof.
  intros Hin. pose proof Hin as (Hrow & Hpending & Hempty)%elem_of_unassigned_pending.
  rewrite (foldl_assign_one_assigned me _ c k t);
    [|apply NoDup_unassigned_pending|done|done].
  unfold with_assignee. by rewrite Hpending, Hempty.
Qed.

(** X12. The assignments of an iteration are committed together or not at
    all, whatever fails: either the database is as it was and no commit was
    made, or one commit was made and every pending task that had no assignee
    now has the manager as its only assignee, with one audit log entry
    each. *)
Theorem autopilot_commit_is_all_or_nothing cfg env db :
  (committed (world_after cfg env db) = db ∧
   EvCommit ∉ trace (world_after cfg env db)) ∨
  (∃ me,
     lookup_manager cfg db = Some me ∧
     EvCommit ∈ trace (world_after cfg env db) ∧
     task_logs (committed (world_after cfg env db)) =
       task_logs db ++ (audit_log me <$> unassigned_pending db) ∧
     ∀ tid t, tasks db !! tid = Some t → task_status t = PENDING →
              task_assignees t = [] →
       tasks (committed (world_after cfg env db)) !! tid =
         Some (mkTask (task_title t) PENDING (task_project_id t) [me.1])).
Proof.
  destruct (iteration_start_cases cfg env db) as (r & c' & evs & Hp & _ & -> & ->).
  destruct (body_path_all_or_nothing _ _ _ _ _ _ Hp)
    as [[-> Hno]|(me & Hme & _ & -> & Hcommit)].
  - left. split; [done|]. by rewrite after_handler_commit.
  - right. exists me. split_and!; [done|by apply after_handler_commit| |].
    + apply foldl_assign_one_logs.
    + intros tid t Hrow Hpending Hempty.
      apply foldl_assign_one_unassigned. by apply elem_of_unassigned_pending.
Qed.

Lemma body_path_success cfg env c r c' evs me :
  body_path cfg env c r c' evs →
  guard cfg = true → lookup_manager cfg c = Some me →
  no_fault_before_broadcast env →
  c' = foldl (assign_one me) c (unassigned_pending c).
Proof.
  intros Hp Hg Hme (Hf1 & Hf2 & Hf3 & Hf4).
  assert (assignable env (select_pending c) = (unassigned_pending c, None)) as Hl
    by (by apply assignable_no_faults).
  destruct Hp; try congruence.
  assert (unassigned_pending c = []) as -> by congruence. done.
Qed.

(** X13. When the configured manager exists and the lookup, the scan, the
    assignments and the commit meet no failure, the iteration leaves no
    pending task without assignee: each one that had none has the manager
    as its only assignee. This does not depend on the notifications, which
    come after the commit. *)
Theorem autopilot_fills_every_gap cfg env db m manager
    (Hen : enabled cfg = true) (Hm : manager_id cfg = Some m) (Hm0 : m ≠ 0)
    (Hmgr : entities db !! m = Some manager)
    (Hnf : no_fault_before_broadcast env) :
  unassigned_pending (committed (world_after cfg env db)) = [] ∧
  ∀ tid t, tasks db !! tid = Some t → task_status t = PENDING →
           task_assignees t = [] →
    tasks (committed (world_after cfg env db)) !! tid =
      Some (mkTask (task_title t) PENDING (task_project_id t) [m]).
Proof.
  destruct (iteration_start_cases cfg env db) as (r & c' & evs & Hp & _ & -> & _).
  assert (lookup_manager cfg db = Some (m, manager)) as Hme.
  { unfold lookup_manager, entity_with_id. rewrite Hm. cbn. by rewrite Hmgr. }
  rewrite (body_path_success _ _ _ _ _ _ _ Hp (guard_true _ _ Hen Hm Hm0) Hme Hnf).
  assert (∀ tid t, (tid, t) ∈ unassigned_pending db →
            tasks (foldl (assign_one (m, manager)) db (unassigned_pending db)) !! tid =
              Some (mkTask (task_title t) PENDING (task_project_id t) [m])) as Hfilled
    by (intros tid t; apply (foldl_assign_one_unassigned (m, manager))).
  split.
  - destruct (unassigned_pending (foldl _ _ _)) as [|[k t] rest] eqn:Hrest; [done|].
    exfalso.
    assert ((k, t) ∈ unassigned_pending
              (foldl (assign_one (m, manager)) db (unassigned_pending db))) as Hin
      by (rewrite Hrest; left).
    apply elem_of_unassigned_pending in Hin as (Hrow & Hpending & Hempty).
    destruct (decide (k ∈ (unassigned_pending db).*1)) as [Hk|Hk].
    + apply list_elem_of_fmap in Hk as ([k' t'] & -> & Hin').
      cbn [fst] in Hrow.
      rewrite (Hfilled _ _ Hin') in Hrow. injection Hrow as <-. discriminate.
    + rewrite foldl_assign_one_other in Hrow by done.
      apply Hk. apply list_elem_of_fmap. exists (k, t). split; [done|].
      by apply elem_of_unassigned_pending.
  - intros tid t Hrow Hpending Hempty. apply Hfilled.
    by apply elem_of_unassigned_pending.
Qed.

Lemma autopilot_fills_every_gap_witness :
  let cfg := mkConfig true (Some 1) in
  let env := autopilot_module (λ _, "t") no_faults in
  enabled cfg = true ∧ manager_id cfg = Some 1 ∧ 1 ≠ 0 ∧
  entities db_two_tasks !! 1 = Some (mkEntity "Ada") ∧
  no_fault_before_broadcast env ∧
  unassigned_pending (committed (world_after cfg env db_two_tasks)) = [].
Proof.
  cbn zeta.
  assert (no_fault_before_broadcast (autopilot_module (λ _, "t") no_faults)) as Hnf
    by (by split_and!).
  split_and!; [reflexivity|reflexivity|lia|reflexivity|exact Hnf|].
  exact (proj1 (autopilot_fills_every_gap (mkConfig true (Some 1))
                  (autopilot_module (λ _, "t") no_faults) db_two_tasks 1
                  (mkEntity "Ada") eq_refl eq_refl ltac:(lia) eq_refl Hnf)).
Defined.

(** ** Iterations that have nothing to do *)

(** X14. When no pending task is without assignee, an iteration changes
    nothing and tells nobody, whatever the configuration and whatever
    fails: the database is as before, and the trace has no write, no commit
    and no broadcast. *)
Theorem autopilot_quiescent cfg env db (Hnone : unassigned_pending db = []) :
  committed (world_after cfg env db) = db ∧
  Forall (λ ev, is_write ev = false ∧ is_broadcast ev = false)
         (trace (world_after cfg env db)).
Proof.
  destruct (iteration_start_cases cfg env db) as (r & c' & evs & Hp & _ & -> & ->).
  destruct (body_path_all_or_nothing _ _ _ _ _ _ Hp)
    as [[-> Hno]|(me & _ & Hsome & _)]; [|done].
  split; [done|]. apply Forall_forall. intros ev Hev.
  assert (∀ x, x ∈ select_pending db → task_assignees x.2 = [] → False) as Hfree.
  { intros x Hx Hempty.
    assert (x ∈ unassigned_pending db) as Hin by (by apply list_elem_of_filter).
    rewrite Hnone in Hin. by apply elem_of_nil in Hin. }
  pose proof (body_path_provenance _ _ _ _ _ _ _ Hp Hev) as Hprov.
  destruct ev; cbn in *; try done.
  - destruct Hprov as (me & t & _ & _ & Hin & Hempty). destruct (Hfree _ Hin Hempty).
  - destruct Hprov as (me & task & _ & Hin & Hempty & _). destruct (Hfree _ Hin Hempty).
  - by apply after_handler_commit in Hev.
  - destruct Hprov as (me & task & clock & j & _ & _ & Hin & Hempty & _).
    destruct (Hfree _ Hin Hempty).
Qed.

Lemma autopilot_quiescent_witness :
  unassigned_pending db_settled = [] ∧
  committed (world_after (mkConfig true (Some 1))
               (autopilot_module (λ _, "t") no_faults) db_settled) = db_settled.
Proof.
  assert (unassigned_pending db_settled = []) as Hnone by (by vm_compute).
  split; [exact Hnone|].
  exact (proj1 (autopilot_quiescent (mkConfig true (Some 1))
                  (autopilot_module (λ _, "t") no_faults) db_settled Hnone)).
Defined.

Lemma iteration_idle cfg env w :
  guard cfg = false →
  (iteration cfg env w).1 = Returns () ∧
  committed (iteration cfg env w).2 = committed w ∧
  trace (iteration cfg env w).2 = trace w ++ [EvSleep 5].
Proof.
  intros Hg. destruct (iteration_path cfg env w) as (r & c' & s' & evs & Hp & ->).
  destruct Hp; try congruence. done.
Qed.

(** X15. While the autopilot is switched off or has no manager (the state
    the module starts in), the loop keeps running and does nothing but
    sleep: after any number of turns the function has not returned an
    error, the database is as it was, and the trace has grown by one sleep
    of 5 seconds per turn, with no query at all. *)
Theorem autopilot_off_only_sleeps script w
    (Hoff : ∀ t, t ∈ script → guard (tick_config t) = false) :
  (run_autopilot_loop script w).1 = Returns () ∧
  committed (run_autopilot_loop script w).2 = committed w ∧
  trace (run_autopilot_loop script w).2 =
    trace w ++ replicate (length script) (EvSleep 5).
Proof.
  revert w. induction script as [|t rest IH]; intros w.
  - cbn. by rewrite app_nil_r.
  - assert (guard (tick_config t) = false) as Hg by (apply Hoff; left).
    destruct (iteration_idle (tick_config t) (tick_env t) w Hg) as (Hr & Hc & Htr).
    assert (∀ t', t' ∈ rest → guard (tick_config t') = false) as Hrest
      by (intros t' Hin; apply Hoff; by right).
    specialize (IH Hrest (iteration (tick_config t) (tick_env t) w).2).
    cbn [run_autopilot_loop]. rewrite bind_run.
    destruct (iteration (tick_config t) (tick_env t) w) as [[[]|e] w'];
      cbn [fst snd] in *; [|done].
    destruct IH as (-> & -> & ->). rewrite Hc, Htr.
    split_and!; [done|done|]. by rewrite <- app_assoc.
Qed.

Lemma autopilot_off_only_sleeps_witness :
  let script := replicate 3 (mkTick initial_config (autopilot_module (λ _, "t") no_faults)) in
  (∀ t, t ∈ script → guard (tick_config t) = false) ∧
  trace (run_autopilot_loop script (start db_two_tasks)).2 =
    [] ++ replicate (length script) (EvSleep 5).
Proof.
  cbn zeta.
  assert (∀ t, t ∈ replicate 3 (mkTick initial_config
                                 (autopilot_module (λ _, "t") no_faults)) →
               guard (tick_config t) = false) as Hoff
    by (by intros t [-> _]%elem_of_replicate).
  split; [exact Hoff|].
  exact (proj2 (proj2 (autopilot_off_only_sleeps _ (start db_two_tasks) Hoff))).
Defined.

(** ** The notifications of an iteration that meets no failure *)

Lemma broadcastable_no_faults env clock me l k :
  env_datetime env = Some clock →
  (∀ j, env_fault env (AtBroadcast j) = None) →
  (broadcastable env k (processed_entry me <$> l)).2 = None ∧
  broadcasts (broadcastable env k (processed_entry me <$> l)).1 =
    imap (λ i task, (task_notification env (k + i) clock (processed_entry me task),
                     task_project_id task.2)) l.
Proof.
  intros Hclock Hnf. revert k. induction l as [|x l IH]; intros k; [done|].
  cbn [fmap list_fmap broadcastable]. rewrite Hclock, Hnf. cbn [fst snd].
  destruct (IH (S k)) as [-> Hbs]. split; [done|].
  cbn [broadcasts omap list_omap]. fold (broadcasts (broadcastable env (S k)
                                                      (processed_entry me <$> l)).1).
  rewrite Hbs, imap_cons, Nat.add_0_r. cbn [processed_entry fst snd]. f_equal.
  apply imap_ext. intros i y _. cbn. by rewrite Nat.add_succ_r.
Qed.

Lemma broadcasts_assign_events me l : broadcasts (l ≫= assign_events me) = [].
Proof. induction l as [|x l IH]; [done|]. cbn. exact IH. Qed.

(** X16. When the name [datetime] is bound, the manager exists and nothing
    fails, an iteration returns normally and hands to the broadcaster one
    notification per pending task without assignee, in the order of the
    scan: the k-th one is built from the k-th such task and goes to the
    project of that task. *)
Theorem autopilot_broadcasts_in_scan_order cfg env db m manager clock
    (Hen : enabled cfg = true) (Hm : manager_id cfg = Some m) (Hm0 : m ≠ 0)
    (Hmgr : entities db !! m = Some manager)
    (Hclock : env_datetime env = Some clock)
    (Hnf : ∀ p, env_fault env p = None) :
  outcome_of cfg env db = Returns () ∧
  broadcasts (trace (world_after cfg env db)) =
    imap (λ k task, (task_notification env k clock (processed_entry (m, manager) task),
                     task_project_id task.2))
         (unassigned_pending db).
Proof.
  destruct (iteration_start_cases cfg env db) as (r & c' & evs & Hp & -> & _ & ->).
  pose proof (guard_true _ _ Hen Hm Hm0) as Hg.
  assert (lookup_manager cfg db = Some (m, manager)) as Hme.
  { unfold lookup_manager, entity_with_id. rewrite Hm. cbn. by rewrite Hmgr. }
  assert (assignable env (select_pending db) = (unassigned_pending db, None)) as Hl
    by (apply assignable_no_faults; intros; apply Hnf).
  destruct Hp; try congruence.
  - assert (unassigned_pending db = []) as -> by congruence. done.
  - assert (me = (m, manager)) as -> by congruence.
    destruct (broadcastable_no_faults env clock (m, manager) l 0 Hclock
                (λ j, Hnf (AtBroadcast j))) as [Hnone _].
    rewrite H6 in Hnone. done.
  - assert (me = (m, manager)) as -> by congruence.
    assert (l = unassigned_pending db) as -> by congruence.
    destruct (broadcastable_no_faults env clock (m, manager) (unassigned_pending db) 0
                Hclock (λ j, Hnf (AtBroadcast j))) as [_ Hbs].
    rewrite H6 in Hbs. cbn [fst snd] in Hbs.
    split; [done|]. cbn [after_handler snd]. unfold broadcasts in *.
    rewrite !omap_app. fold (broadcasts (unassigned_pending db ≫= assign_events (m, manager))).
    rewrite broadcasts_assign_events, Hbs. cbn. by rewrite app_nil_r.
Qed.

Lemma autopilot_broadcasts_in_scan_order_witness :
  let cfg := mkConfig true (Some 1) in
  let clock := λ _ : nat, DateTime 2024 1 5 9 3 7 0 eq_refl in
  enabled cfg = true ∧ manager_id cfg = Some 1 ∧ 1 ≠ 0 ∧
  entities db_two_tasks !! 1 = Some (mkEntity "Ada") ∧
  env_datetime env_bound = Some clock ∧
  (∀ p, env_fault env_bound p = None) ∧
  outcome_of cfg env_bound db_two_tasks = Returns ().
Proof.
  cbn zeta.
  split_and!; [reflexivity|reflexivity|lia|reflexivity|reflexivity|reflexivity|].
  exact (proj1 (autopilot_broadcasts_in_scan_order (mkConfig true (Some 1)) env_bound
                  db_two_tasks 1 (mkEntity "Ada") _ eq_refl eq_refl ltac:(lia) eq_refl
                  eq_refl (λ _, eq_refl))).
Defined.

(** ** The control loop and the endpoints *)

Lemma foldl_assign_task_tasks m l c1 c2 :
  NoDup l.*1 →
  (∀ k t, (k, t) ∈ l → tasks c1 !! k = Some t ∧ task_assignees t = []) →
  tasks c1 = tasks c2 → is_Some (entities c2 !! m.1) →
  tasks (foldl (assign_one m) c1 l) =
  tasks (foldl (λ d task, (assign_task task.1 m.1 d).2) c2 l).
Proof.
  revert c1 c2. induction l as [|[k t] l IH]; intros c1 c2 Hnd Hrows Heq Hent; [done|].
  cbn [foldl]. apply NoDup_cons in Hnd as [Hk Hnd].
  destruct (Hrows k t) as [Hrow Hempty]; [left|].
  assert (assign_task k m.1 c2 = (Response (k, with_assignee m.1 t),
                                  append_assignee k m.1 c2)) as Hassign.
  { rewrite (assign_task_present c2 k m.1 t) by (by rewrite <- ?Heq).
    rewrite Hempty, bool_decide_eq_true_2; [done|]. apply not_elem_of_nil. }
  cbn [fst snd]. rewrite Hassign. cbn [snd]. apply IH; [done| | |done].
  - intros k' t' Hin. destruct (Hrows k' t') as [Hrow' Hempty']; [by right|].
    split; [|done]. cbn. rewrite lookup_alter_ne; [done|].
    intros <-. apply Hk. apply list_elem_of_fmap. by exists (k, t').
  - cbn. by rewrite Heq.
Qed.

Lemma foldl_assign_task_entities m (l : list (Z * Task)) c :
  entities (foldl (λ d task, (assign_task task.1 m d).2) c l) = entities c.
Proof.
  revert c. induction l as [|x l IH]; intros c; [done|]. cbn [foldl]. rewrite IH.
  unfold assign_task. repeat case_match; done.
Qed.

(** X17. When the manager exists and the lookup, the scan, the assignments
    and the commit meet no failure, the task table that an iteration
    commits is the one obtained by calling [POST /tasks/{id}/assign/{m}]
    with the manager's key on each pending task without assignee, in the
    order of the scan (the control loop adds the audit log entries, which
    the endpoint does not write). *)
Theorem autopilot_assigns_like_the_endpoint cfg env db m manager
    (Hen : enabled cfg = true) (Hm : manager_id cfg = Some m) (Hm0 : m ≠ 0)
    (Hmgr : entities db !! m = Some manager)
    (Hnf : no_fault_before_broadcast env) :
  tasks (committed (world_after cfg env db)) =
    tasks (foldl (λ d task, (assign_task task.1 m d).2) db (unassigned_pending db)) ∧
  entities (committed (world_after cfg env db)) =
    entities (foldl (λ d task, (assign_task task.1 m d).2) db (unassigned_pending db)).
Proof.
  destruct (iteration_start_cases cfg env db) as (r & c' & evs & Hp & _ & -> & _).
  assert (lookup_manager cfg db = Some (m, manager)) as Hme.
  { unfold lookup_manager, entity_with_id. rewrite Hm. cbn. by rewrite Hmgr. }
  rewrite (body_path_success _ _ _ _ _ _ _ Hp (guard_true _ _ Hen Hm Hm0) Hme Hnf).
  split.
  - apply (foldl_assign_task_tasks (m, manager)); [apply NoDup_unassigned_pending| |done|by eexists].
    intros k t Hin. by apply elem_of_unassigned_pending in Hin as (? & _ & ?).
  - by rewrite foldl_assign_one_entities, foldl_assign_task_entities.
Qed.

Lemma autopilot_assigns_like_the_endpoint_witness :
  let cfg := mkConfig true (Some 1) in
  let env := autopilot_module (λ _, "t") no_faults in
  enabled cfg = true ∧ manager_id cfg = Some 1 ∧ 1 ≠ 0 ∧
  entities db_two_tasks !! 1 = Some (mkEntity "Ada") ∧
  no_fault_before_broadcast env ∧
  tasks (committed (world_after cfg env db_two_tasks)) =
    tasks (foldl (λ d task, (assign_task task.1 1 d).2) db_two_tasks
                 (unassigned_pending db_two_tasks)).
Proof.
  cbn zeta.
  assert (no_fault_before_broadcast (autopilot_module (λ _, "t") no_faults)) as Hnf
    by (by split_and!).
  split_and!; [reflexivity|reflexivity|lia|reflexivity|exact Hnf|].
  exact (proj1 (autopilot_assigns_like_the_endpoint (mkConfig true (Some 1))
                  (autopilot_module (λ _, "t") no_faults) db_two_tasks 1
                  (mkEntity "Ada") eq_refl eq_refl ltac:(lia) eq_refl Hnf)).
Defined.

Lemma filter_audit_log_present me l tid t :
  NoDup l.*1 → (tid, t) ∈ l →
  filter (λ lg, log_task_id lg = tid) (audit_log me <$> l) = [audit_log me (tid, t)].
Proof.
  induction l as [|[k t'] l IH]; intros Hnd Hin; [by apply elem_of_nil in Hin|].
  apply NoDup_cons in Hnd as [Hk Hnd]. cbn [fmap list_fmap].
  rewrite filter_cons. cbn [audit_log log_task_id fst].
  apply elem_of_cons in Hin as [[= <- <-]|Hin].
  - rewrite decide_True by done. f_equal. by apply filter_audit_log_other.
  - rewrite decide_False; [by apply IH|].
    intros ->. apply Hk. apply list_elem_of_fmap. by exists (tid, t).
Qed.

(** X18. What [GET /tasks/{id}/logs] shows after one iteration, whatever
    the database it starts from and whatever fails: the entries it showed
    before, and at most one more. The new entry is the audit log entry of
    the configured manager for this task; it is there only if the scan
    found the task pending without assignee, and the task then has the
    manager as its assignee. An iteration that starts from the database
    this one committed adds no entry for the task. *)
Theorem autopilot_logs_task_once_per_assignment cfg env db tid :
  get_task_logs tid (committed (world_after cfg env db)) = get_task_logs tid db ∨
  ∃ me t,
    lookup_manager cfg db = Some me ∧
    tasks db !! tid = Some t ∧ task_status t = PENDING ∧ task_assignees t = [] ∧
    get_task_logs tid (committed (world_after cfg env db)) ≡ₚ
      audit_log me (tid, t) :: get_task_logs tid db ∧
    tasks (committed (world_after cfg env db)) !! tid =
      Some (mkTask (task_title t) PENDING (task_project_id t) [me.1]) ∧
    ∀ cfg' env',
      get_task_logs tid
        (committed (world_after cfg' env' (committed (world_after cfg env db)))) =
      get_task_logs tid (committed (world_after cfg env db)).
Proof.
  destruct (iteration_start_cases cfg env db) as (r & c' & evs & Hp & _ & -> & _).
  destruct (body_path_all_or_nothing _ _ _ _ _ _ Hp)
    as [[-> _]|(me & Hme & _ & -> & _)]; [by left|].
  destruct (decide (tid ∈ (unassigned_pending db).*1)) as [Hin|Hout].
  2:{ left. unfold get_task_logs. rewrite foldl_assign_one_logs, filter_app.
      rewrite filter_audit_log_other by done. by rewrite app_nil_r. }
  right. apply list_elem_of_fmap in Hin as ([k t] & -> & Hin). cbn [fst].
  exists me, t. pose proof Hin as (Hrow & Hpending & Hempty)%elem_of_unassigned_pending.
  pose proof (foldl_assign_one_unassigned me db k t Hin) as Hrow'.
  split_and!; [done..| |done|].
  - unfold get_task_logs. rewrite foldl_assign_one_logs, filter_app.
    rewrite (filter_audit_log_present me _ k t); [|apply NoDup_unassigned_pending|done].
    by rewrite reverse_app.
  - intros cfg' env'.
    destruct (iteration_start_cases cfg' env'
                (foldl (assign_one me) db (unassigned_pending db)))
      as (r2 & c2 & evs2 & Hp2 & _ & -> & _).
    destruct (body_path_all_or_nothing _ _ _ _ _ _ Hp2)
      as [[-> _]|(me2 & _ & _ & -> & _)]; [done|].
    unfold get_task_logs.
    rewrite (foldl_assign_one_logs me2), filter_app.
    rewrite (filter_audit_log_other me2); [by rewrite app_nil_r|].
    intros ([k2 t2] & Hk & Hin2)%list_elem_of_fmap. cbn [fst] in Hk. subst k2.
    apply elem_of_unassigned_pending in Hin2 as (Hrow2 & _ & Hempty2).
    rewrite Hrow' in Hrow2. injection Hrow2 as <-. discriminate Hempty2.
Qed.
